(** * DorefaConv2d: a shallow embedding of
      [tensorlayer/layers/convolution/dorefa_conv.py]

    The layer object is a record of its attributes, the methods [__init__],
    [build] and [forward] are computations in a state-and-exception monad whose
    state is the layer object: like in Python, an exception does not roll the
    object back, so the state reached when the exception was raised is part of
    the result. *)

From Stdlib Require Import ZArith List String Bool Lia.
From Stdlib Require Import Ascii DecimalString.
Import ListNotations.
Local Open Scope string_scope.
Local Open Scope Z_scope.

(** ** Python values *)

(** The exceptions the layer can raise: the two it raises itself
    ([Exception] and [ValueError], with their messages) and the ones the
    interpreter raises on a subscript out of range, on a subscript of [None]
    and on a missing attribute. *)
Inductive PyErr : Type :=
| Exception_ (msg : string)
| ValueError (msg : string)
| IndexError
| TypeError
| AttributeError (attr : string).

(** Truth-value testing, [if v:]. *)
Class Truthy (A : Type) := truthy : A -> bool.

#[export] Instance Truthy_bool : Truthy bool := fun v => v.
#[export] Instance Truthy_int : Truthy Z := fun v => negb (v =? 0)%Z.
(** Initialisers and activation functions are plain objects: always true. *)
#[export] Instance Truthy_callable {A B : Type} : Truthy (A -> B) := fun _ => true.

(** [if v: then_(v) else: else_] on a value that is [None] or a payload. *)
Definition if_truthy {A B : Type} `{Truthy A}
    (v : option A) (then_ : A -> B) (else_ : B) : B :=
  match v with
  | Some x => if truthy x then then_ x else else_
  | None => else_
  end.

Definition len {A : Type} (t : list A) : Z := Z.of_nat (List.length t).

(** [t[i]] on a tuple or list, negative indices counting from the end. *)
Definition subscript {A : Type} (t : list A) (i : Z) : PyErr + A :=
  let j := if i <? 0 then i + len t else i in
  if j <? 0 then inl IndexError
  else match nth_error t (Z.to_nat j) with
       | Some v => inr v
       | None => inl IndexError
       end.

(** [s[i]] where [s] may be [None]. *)
Definition subscript_opt {A : Type} (s : option (list A)) (i : Z) : PyErr + A :=
  match s with
  | Some t => subscript t i
  | None => inl TypeError
  end.

(** ** What the specification says [build] resolves

    These follow the wording of the specification, to be compared with what
    [build] leaves in the object. *)

(** The canonical 4-axis tag of a channel-ordering mode. *)
Definition canonical_tag (mode : string) : option string :=
  if (mode =? "channels_last")%string then Some "NHWC"
  else if (mode =? "channels_first")%string then Some "NCHW"
  else None.

(** The axis of the input shape that holds the channels: the last one for
    channels_last, the second one for channels_first. *)
Definition channel_axis (mode : string) : Z :=
  if (mode =? "channels_last")%string then -1 else 1.

(** A (height, width) pair with 1 inserted at the batch and channel axes. *)
Definition expand4 (mode : string) (h w : Z) : list Z :=
  if (mode =? "channels_last")%string then [1; h; w; 1] else [1; 1; h; w].

(** ** The errors the layer raises itself *)

Definition data_format_error : PyErr :=
  Exception_ "data_format should be either channels_last or channels_first".

Definition gemm_error : PyErr :=
  Exception_ "TODO. The current version use tf.matmul for inferencing.".

Definition strides_error : PyErr := ValueError "len(strides) should be 2.".

(** The specification's names for these errors: a malformed constructor
    argument (wrong stride arity, unknown channel-ordering mode) is a
    ConfigurationError, the unimplemented matmul path an
    UnsupportedFeatureError (also called NotImplementedError there). *)
Definition ConfigurationError (e : PyErr) : Prop :=
  e = strides_error \/ e = data_format_error.

Definition UnsupportedFeatureError (e : PyErr) : Prop := e = gemm_error.

(** ** The tensor runtime

    [cabs], [quantize_active] and [quantize_weight] come from
    [tensorlayer.layers.utils], [conv2d] and [bias_add] from [tf.nn]; the
    layer only composes them, so they are an interface here. They are taken
    as total functions of their arguments. *)
Class TensorRuntime : Type := {
  Tensor : Type;
  cabs : Tensor -> Tensor;
  quantize_active : Tensor -> Z -> Tensor;
  quantize_weight : Tensor -> Z -> Tensor;
  (* input, filters, strides, padding, data_format, dilations, name *)
  conv2d : Tensor -> Tensor -> list Z -> string -> string -> list Z ->
           option string -> Tensor;
  (* value, bias, data_format, name *)
  bias_add : Tensor -> Tensor -> string -> string -> Tensor
}.

Section Layer.

Context {RT : TensorRuntime}.

(** An initialiser maps a shape to a tensor. It is taken as total: an
    initialiser that refuses a shape (a negative dimension) is not modelled,
    nor is a primitive of the runtime that refuses its operands. *)
Definition Initializer : Type := list Z -> Tensor.

(** ** The layer object *)

(** Attributes assigned once by [__init__] and only read afterwards.
    [name] is [None] or a str. *)
Record Hyper : Type := {
  bitW : Z;
  bitA : Z;
  n_filter : Z;
  filter_size : list Z;
  strides : list Z;
  act : option (Tensor -> Tensor);
  padding : string;
  use_gemm : bool;
  dilation_rate : list Z;
  W_init : Initializer;
  b_init : option Initializer;
  name : option string
}.

(** The whole object. [pre_channel], [filter_shape], [W] and [b] do not exist
    before [build] assigns them: [None] is the missing attribute.
    [in_channels] always exists and holds [None] or an int. *)
Record DorefaConv2d : Type := {
  hyper :> Hyper;
  data_format : string;
  in_channels : option Z;
  _strides : list Z;
  _dilation_rate : list Z;
  _built : bool;
  pre_channel : option Z;
  filter_shape : option (list Z);
  W : option Tensor;
  b : option Tensor;
  _trainable_weights : list (string * list Z * Tensor)
}.

Definition set_data_format (v : string) (self : DorefaConv2d) : DorefaConv2d :=
  {| hyper := hyper self; data_format := v; in_channels := in_channels self;
     _strides := _strides self; _dilation_rate := _dilation_rate self;
     _built := _built self; pre_channel := pre_channel self;
     filter_shape := filter_shape self; W := W self; b := b self;
     _trainable_weights := _trainable_weights self |}.

Definition set_in_channels (v : option Z) (self : DorefaConv2d) : DorefaConv2d :=
  {| hyper := hyper self; data_format := data_format self; in_channels := v;
     _strides := _strides self; _dilation_rate := _dilation_rate self;
     _built := _built self; pre_channel := pre_channel self;
     filter_shape := filter_shape self; W := W self; b := b self;
     _trainable_weights := _trainable_weights self |}.

Definition set__strides (v : list Z) (self : DorefaConv2d) : DorefaConv2d :=
  {| hyper := hyper self; data_format := data_format self;
     in_channels := in_channels self;
     _strides := v; _dilation_rate := _dilation_rate self;
     _built := _built self; pre_channel := pre_channel self;
     filter_shape := filter_shape self; W := W self; b := b self;
     _trainable_weights := _trainable_weights self |}.

Definition set__dilation_rate (v : list Z) (self : DorefaConv2d) : DorefaConv2d :=
  {| hyper := hyper self; data_format := data_format self;
     in_channels := in_channels self;
     _strides := _strides self; _dilation_rate := v;
     _built := _built self; pre_channel := pre_channel self;
     filter_shape := filter_shape self; W := W self; b := b self;
     _trainable_weights := _trainable_weights self |}.

Definition set__built (v : bool) (self : DorefaConv2d) : DorefaConv2d :=
  {| hyper := hyper self; data_format := data_format self;
     in_channels := in_channels self;
     _strides := _strides self; _dilation_rate := _dilation_rate self;
     _built := v; pre_channel := pre_channel self;
     filter_shape := filter_shape self; W := W self; b := b self;
     _trainable_weights := _trainable_weights self |}.

Definition set_pre_channel (v : Z) (self : DorefaConv2d) : DorefaConv2d :=
  {| hyper := hyper self; data_format := data_format self;
     in_channels := in_channels self;
     _strides := _strides self; _dilation_rate := _dilation_rate self;
     _built := _built self; pre_channel := Some v;
     filter_shape := filter_shape self; W := W self; b := b self;
     _trainable_weights := _trainable_weights self |}.

Definition set_filter_shape (v : list Z) (self : DorefaConv2d) : DorefaConv2d :=
  {| hyper := hyper self; data_format := data_format self;
     in_channels := in_channels self;
     _strides := _strides self; _dilation_rate := _dilation_rate self;
     _built := _built self; pre_channel := pre_channel self;
     filter_shape := Some v; W := W self; b := b self;
     _trainable_weights := _trainable_weights self |}.

Definition set_W (v : Tensor) (self : DorefaConv2d) : DorefaConv2d :=
  {| hyper := hyper self; data_format := data_format self;
     in_channels := in_channels self;
     _strides := _strides self; _dilation_rate := _dilation_rate self;
     _built := _built self; pre_channel := pre_channel self;
     filter_shape := filter_shape self; W := Some v; b := b self;
     _trainable_weights := _trainable_weights self |}.

Definition set_b (v : Tensor) (self : DorefaConv2d) : DorefaConv2d :=
  {| hyper := hyper self; data_format := data_format self;
     in_channels := in_channels self;
     _strides := _strides self; _dilation_rate := _dilation_rate self;
     _built := _built self; pre_channel := pre_channel self;
     filter_shape := filter_shape self; W := W self; b := Some v;
     _trainable_weights := _trainable_weights self |}.

Definition set__trainable_weights (v : list (string * list Z * Tensor))
    (self : DorefaConv2d) : DorefaConv2d :=
  {| hyper := hyper self; data_format := data_format self;
     in_channels := in_channels self;
     _strides := _strides self; _dilation_rate := _dilation_rate self;
     _built := _built self; pre_channel := pre_channel self;
     filter_shape := filter_shape self; W := W self; b := b self;
     _trainable_weights := v |}.

(** ** The method monad: the object is threaded through, also past a raise *)

Definition M (A : Type) : Type := DorefaConv2d -> DorefaConv2d * (PyErr + A).

Definition ret {A : Type} (a : A) : M A := fun self => (self, inr a).

Definition bind {A B : Type} (m : M A) (k : A -> M B) : M B :=
  fun self =>
    match m self with
    | (self', inr a) => k a self'
    | (self', inl e) => (self', inl e)
    end.

Definition raise {A : Type} (e : PyErr) : M A := fun self => (self, inl e).

(** [self.attr] for an attribute that always exists. *)
Definition gets {A : Type} (attr : DorefaConv2d -> A) : M A :=
  fun self => (self, inr (attr self)).

(** [self.attr] for an attribute that may not exist yet. *)
Definition getattr {A : Type} (attr_name : string)
    (attr : DorefaConv2d -> option A) : M A :=
  fun self =>
    match attr self with
    | Some v => (self, inr v)
    | None => (self, inl (AttributeError attr_name))
    end.

(** [self.attr = v] *)
Definition setattr {A : Type} (set : A -> DorefaConv2d -> DorefaConv2d) (v : A)
    : M unit :=
  fun self => (set v self, inr tt).

(** The result of a subscript, raised if it is an error. *)
Definition lift {A : Type} (r : PyErr + A) : M A :=
  fun self => (self, r).

(** [if c: body], without [else]. *)
Definition when (c : bool) (body : M unit) : M unit :=
  if c then body else ret tt.

Notation "x <- m ;; k" := (bind m (fun x => k))
  (at level 100, m at next level, right associativity).
Notation "m ;; k" := (bind m (fun _ => k))
  (at level 100, right associativity).

(** Modelled from the spec: [Layer._get_weights] of
    [tensorlayer/layers/core.py], the base class's parameter-registration
    facility: it allocates the tensor with the initialiser over the shape,
    tracks it under its name as a trainable parameter and returns it. *)
Definition _get_weights (var_name : string) (shape : list Z)
    (init : Initializer) : M Tensor :=
  fun self =>
    let weight := init shape in
    (set__trainable_weights
       (_trainable_weights self ++ [(var_name, shape, weight)])%list self,
     inr weight).

(** [logging.info(...)]: writes a line to the log and touches no attribute. *)
Definition logging_info : M unit := ret tt.

(** ** [build] *)

Definition build (inputs_shape : option (list Z)) : M unit :=
  df <- gets data_format ;;
  (if (df =? "channels_last")%string then
     setattr set_data_format "NHWC" ;;
     ic <- gets in_channels ;;
     if_truthy ic
       (fun c => setattr set_pre_channel c)
       (c <- lift (subscript_opt inputs_shape (-1)) ;;
        setattr set_pre_channel c ;;
        pc <- getattr "pre_channel" pre_channel ;;
        setattr set_in_channels (Some pc)) ;;
     st <- gets _strides ;;
     s0 <- lift (subscript st 0) ;;
     s1 <- lift (subscript st 1) ;;
     setattr set__strides [1; s0; s1; 1] ;;
     dr <- gets _dilation_rate ;;
     d0 <- lift (subscript dr 0) ;;
     d1 <- lift (subscript dr 1) ;;
     setattr set__dilation_rate [1; d0; d1; 1]
   else if (df =? "channels_first")%string then
     setattr set_data_format "NCHW" ;;
     ic <- gets in_channels ;;
     if_truthy ic
       (fun c => setattr set_pre_channel c)
       (c <- lift (subscript_opt inputs_shape 1) ;;
        setattr set_pre_channel c ;;
        pc <- getattr "pre_channel" pre_channel ;;
        setattr set_in_channels (Some pc)) ;;
     st <- gets _strides ;;
     s0 <- lift (subscript st 0) ;;
     s1 <- lift (subscript st 1) ;;
     setattr set__strides [1; 1; s0; s1] ;;
     dr <- gets _dilation_rate ;;
     d0 <- lift (subscript dr 0) ;;
     d1 <- lift (subscript dr 1) ;;
     setattr set__dilation_rate [1; 1; d0; d1]
   else
     raise (Exception_
       "data_format should be either channels_last or channels_first")) ;;
  fs <- gets filter_size ;;
  f0 <- lift (subscript fs 0) ;;
  f1 <- lift (subscript fs 1) ;;
  pc <- getattr "pre_channel" pre_channel ;;
  nf <- gets n_filter ;;
  setattr set_filter_shape [f0; f1; pc; nf] ;;
  shape <- getattr "filter_shape" filter_shape ;;
  wi <- gets W_init ;;
  w <- _get_weights "filters" shape wi ;;
  setattr set_W w ;;
  bi <- gets b_init ;;
  if_truthy bi
    (fun init =>
       nf <- gets n_filter ;;
       bias <- _get_weights "biases" [nf] init ;;
       setattr set_b bias)
    (ret tt).

(** ** [forward] *)

Definition forward (inputs : Tensor) : M Tensor :=
  bA <- gets bitA ;;
  let inputs := quantize_active (cabs inputs) bA in
  w <- getattr "W" W ;;
  bW <- gets bitW ;;
  let W_ := quantize_weight w bW in
  st <- gets _strides ;;
  pad <- gets padding ;;
  df <- gets data_format ;;
  dil <- gets _dilation_rate ;;
  nm <- gets name ;;
  let outputs := conv2d inputs W_ st pad df dil nm in
  bi <- gets b_init ;;
  outputs <- if_truthy bi
               (fun _ =>
                  bias <- getattr "b" b ;;
                  df <- gets data_format ;;
                  ret (bias_add outputs bias df "bias_add"))
               (ret outputs) ;;
  a <- gets act ;;
  outputs <- if_truthy a (fun f => ret (f outputs)) (ret outputs) ;;
  ret outputs.

(** ** [__init__] *)

(** The keyword arguments: the ones stored as they are, and the two whose
    attribute [build] reassigns. *)
Record Args : Type := {
  kw_hyper :> Hyper;
  kw_data_format : string;
  kw_in_channels : option Z
}.

(** The object after [super().__init__(name)] and the attribute assignments
    that open [__init__]: the base class leaves the layer unbuilt with no
    weight tracked. *)
Definition assign_attributes (kw : Args) : DorefaConv2d :=
  {| hyper := kw;
     data_format := kw_data_format kw;
     in_channels := kw_in_channels kw;
     _strides := strides kw;
     _dilation_rate := dilation_rate kw;
     _built := false;
     pre_channel := None;
     filter_shape := None;
     W := None;
     b := None;
     _trainable_weights := [] |}.

Definition __init__ (kw : Args) : DorefaConv2d * (PyErr + unit) :=
  (ic <- gets in_channels ;;
   if_truthy ic
     (fun _ => build None ;; setattr set__built true)
     (ret tt) ;;
   logging_info ;;
   ug <- gets use_gemm ;;
   when (truthy ug)
     (raise (Exception_
        "TODO. The current version use tf.matmul for inferencing.")) ;;
   st <- gets strides ;;
   when (negb (len st =? 2))
     (raise (ValueError "len(strides) should be 2.")))
  (assign_attributes kw).

(** Successive [forward] calls on one object, whatever each call returns. *)
Definition forward_calls (inputs : list Tensor) (self : DorefaConv2d)
    : DorefaConv2d :=
  fold_left (fun obj x => fst (forward x obj)) inputs self.

(** ** The object a completed [build] leaves

    [build] applied to [self], when the channels resolve to [c], the strides
    to [(s0, s1)], the dilation to [(d0, d1)], the filter size to [(f0, f1)]
    and the channel-ordering mode to [tag]. *)
Definition built_object (self : DorefaConv2d) (tag : string)
    (c s0 s1 d0 d1 f0 f1 : Z) : DorefaConv2d :=
  let shape := [f0; f1; c; n_filter self] in
  {| hyper := hyper self;
     data_format := tag;
     in_channels :=
       if_truthy (in_channels self) (fun _ => in_channels self) (Some c);
     _strides := expand4 (data_format self) s0 s1;
     _dilation_rate := expand4 (data_format self) d0 d1;
     _built := _built self;
     pre_channel := Some c;
     filter_shape := Some shape;
     W := Some (W_init self shape);
     b := match b_init self with
          | Some init => Some (init [n_filter self])
          | None => b self
          end;
     _trainable_weights :=
       (_trainable_weights self
        ++ ("filters", shape, W_init self shape)
           :: match b_init self with
              | Some init => [("biases", [n_filter self], init [n_filter self])]
              | None => []
              end)%list |}.

(** The input-channel count: the configured one, or the one of the shape. *)
Definition resolve_channels (inputs_shape : option (list Z))
    (self : DorefaConv2d) : PyErr + Z :=
  if_truthy (in_channels self) inr
    (subscript_opt inputs_shape (channel_axis (data_format self))).

(** [resolved inputs_shape self obj]: everything [build] reads resolves, and
    [obj] is the object it then leaves. *)
Inductive resolved (inputs_shape : option (list Z)) (self : DorefaConv2d)
    : DorefaConv2d -> Prop :=
| resolved_intro (tag : string) (c s0 s1 d0 d1 f0 f1 : Z) :
    canonical_tag (data_format self) = Some tag ->
    resolve_channels inputs_shape self = inr c ->
    subscript (_strides self) 0 = inr s0 ->
    subscript (_strides self) 1 = inr s1 ->
    subscript (_dilation_rate self) 0 = inr d0 ->
    subscript (_dilation_rate self) 1 = inr d1 ->
    subscript (filter_size self) 0 = inr f0 ->
    subscript (filter_size self) 1 = inr f1 ->
    resolved inputs_shape self (built_object self tag c s0 s1 d0 d1 f0 f1).

End Layer.

(** ** [__repr__]

    The strings Python makes of the values [__repr__] shows, and
    [str.format] on a template with named fields. *)

(** [str(v)] for an int. *)
Definition str_int (v : Z) : string := NilZero.string_of_int (Z.to_int v).

(** [str(v)] for a value that is [None] or an int. *)
Definition str_optional_int (v : option Z) : string :=
  match v with
  | Some i => str_int i
  | None => "None"
  end.

(** [str(v)] for a value that is [None] or a str. *)
Definition str_optional (v : option string) : string :=
  match v with
  | Some text => text
  | None => "None"
  end.

(** [str(t)] for a tuple of ints: [()], [(3,)], [(3, 3)]. *)
Definition str_tuple (t : list Z) : string :=
  match t with
  | [] => "()"
  | [v] => "(" ++ str_int v ++ ",)"
  | _ => "(" ++ String.concat ", " (map str_int t) ++ ")"
  end.

(** [a == b] on tuples of ints. *)
Fixpoint tuple_eqb (a b : list Z) : bool :=
  match a, b with
  | [], [] => true
  | x :: a', y :: b' => (x =? y) && tuple_eqb a' b'
  | _, _ => false
  end.

(** [(v,) * n] *)
Definition tuple_repeat (v : Z) (n : Z) : list Z := repeat v (Z.to_nat n).

(** Where [str.format] is in its template: in literal text, after a [{],
    inside the name of a field, after a [}]. *)
Inductive FormatState : Type :=
| InText
| AfterOpen
| InField (key : string)
| AfterClose.

(** [template.format] with keyword arguments, for fields that are plain
    names. [{{] and
    [}}] stand for a brace; a field is replaced by the string of its value.
    [None] is everything else: the errors of [format] (a single brace, an
    unknown name, a positional field), and the conversions, format
    specifications and attribute or index lookups, which are not
    rendered here. *)
Fixpoint format_from (state : FormatState) (template : string)
    (kwargs : string -> option string) : option string :=
  match template with
  | EmptyString =>
      match state with
      | InText => Some EmptyString
      | _ => None
      end
  | String ch rest =>
      match state with
      | InText =>
          if (ch =? "{")%char then format_from AfterOpen rest kwargs
          else if (ch =? "}")%char then format_from AfterClose rest kwargs
          else option_map (String ch) (format_from InText rest kwargs)
      | AfterOpen =>
          if (ch =? "{")%char
          then option_map (String ch) (format_from InText rest kwargs)
          else if (ch =? "}")%char then None
          else format_from (InField (String ch EmptyString)) rest kwargs
      | InField key =>
          if (ch =? "}")%char then
            match kwargs key with
            | Some value =>
                option_map (append value) (format_from InText rest kwargs)
            | None => None
            end
          else if (ch =? "{")%char then None
          else format_from (InField (key ++ String ch EmptyString)) rest kwargs
      | AfterClose =>
          if (ch =? "}")%char
          then option_map (String ch) (format_from InText rest kwargs)
          else None
      end
  end.

Definition format (template : string) (kwargs : list (string * string))
    : option string :=
  format_from InText template
    (fun key =>
       match find (fun entry => (fst entry =? key)%string) kwargs with
       | Some entry => Some (snd entry)
       | None => None
       end).

(** A string without [{] and [}]. *)
Fixpoint no_brace (s : string) : bool :=
  match s with
  | EmptyString => true
  | String ch rest =>
      negb (ch =? "{")%char && negb (ch =? "}")%char && no_brace rest
  end.

Section Repr.

Context {RT : TensorRuntime}.

(** [f.__name__] of an activation function. *)
Variable __name__ : (Tensor -> Tensor) -> string.

(** The keyword arguments of the [format] call: the class name and, of
    [self.__dict__], the attributes the template of [__repr__] names. A
    field naming another attribute is not rendered ([None]); only the name
    of the activation can bring one in, so the properties below ask for a
    name without braces. [filter_size], [strides] and [dilation_rate] are
    tuples of ints, as documented. *)
Definition format_kwargs (self : DorefaConv2d) : list (string * string) :=
  [("classname", "DorefaConv2d");
   ("in_channels", str_optional_int (in_channels self));
   ("n_filter", str_int (n_filter self));
   ("filter_size", str_tuple (filter_size self));
   ("strides", str_tuple (strides self));
   ("padding", padding self);
   ("dilation_rate", str_tuple (dilation_rate self));
   ("name", str_optional (name self))].

Definition __repr__ (self : DorefaConv2d) : option string :=
  let actstr :=
    match act self with
    | Some f => __name__ f
    | None => "No Activation"
    end in
  let s :=
    "{classname}(in_channels={in_channels}, out_channels={n_filter}, kernel_size={filter_size}"
    ++ ", strides={strides}, padding={padding}" in
  let s :=
    if negb (tuple_eqb (dilation_rate self)
               (tuple_repeat 1 (len (dilation_rate self))))
    then s ++ ", dilation={dilation_rate}"
    else s in
  let s :=
    match b_init self with
    | None => s ++ ", bias=False"
    | Some _ => s
    end in
  let s := s ++ (", " ++ actstr) in
  let s :=
    match name self with
    | Some _ => s ++ ", name='{name}'"
    | None => s
    end in
  let s := s ++ ")" in
  format s (format_kwargs self).

End Repr.

(** ** A symbolic tensor runtime

    Tensors are the expressions that compute them, so that the operands of
    every primitive can be read off a result. *)
Inductive Sym : Type :=
| SInput (id : string)
| SParam (init : string) (shape : list Z)
| SCabs (t : Sym)
| SQuantizeActive (t : Sym) (bits : Z)
| SQuantizeWeight (t : Sym) (bits : Z)
| SConv2d (input filters : Sym) (strides : list Z) (padding data_format : string)
    (dilations : list Z) (name : option string)
| SBiasAdd (value bias : Sym) (data_format name : string)
| SApply (fn : string) (t : Sym).

#[export] Instance SymRuntime : TensorRuntime := {|
  Tensor := Sym;
  cabs := SCabs;
  quantize_active := SQuantizeActive;
  quantize_weight := SQuantizeWeight;
  conv2d := SConv2d;
  bias_add := SBiasAdd
|}.

(** The constructor's defaults, with the arguments the examples vary. *)
Definition example_args (strides_ : list Z) (use_gemm_ : bool)
    (data_format_ : string) (b_init_ : option (list Z -> Sym))
    (in_channels_ : option Z) : Args (RT := SymRuntime) :=
  {| kw_hyper :=
       {| bitW := 1; bitA := 3; n_filter := 32; filter_size := [3; 3];
          strides := strides_; act := None; padding := "SAME";
          use_gemm := use_gemm_; dilation_rate := [1; 1];
          W_init := SParam "truncated_normal";
          b_init := b_init_;
          name := Some "dorefa_cnn2d" |};
     kw_data_format := data_format_;
     kw_in_channels := in_channels_ |}.

Definition constant_init : option (list Z -> Sym) := Some (SParam "constant").

(** An unbuilt default layer, channels_last, waiting for its input shape. *)
Definition lazy_layer : DorefaConv2d (RT := SymRuntime) :=
  assign_attributes
    (example_args [1; 1] false "channels_last" constant_init None).


(** The default layer once [build] has seen an NHWC input shape. *)
Definition built_lazy_layer : DorefaConv2d (RT := SymRuntime) :=
  fst (build (Some [8; 28; 28; 3]) lazy_layer).


(** [DorefaConv2d(strides=(1, 1, 1))] *)
Definition three_strides_args : Args (RT := SymRuntime) :=
  example_args [1; 1; 1] false "channels_last" constant_init None.

(** [DorefaConv2d(strides=(1, 1, 1), use_gemm=True)] *)
Definition gemm_three_strides_args : Args (RT := SymRuntime) :=
  example_args [1; 1; 1] true "channels_last" constant_init None.

(** [DorefaConv2d(use_gemm=True)] *)
Definition gemm_args : Args (RT := SymRuntime) :=
  example_args [1; 1] true "channels_last" constant_init None.

(** [DorefaConv2d(use_gemm=True, data_format="channels_middle",
    in_channels=3)] *)
Definition gemm_bad_mode_args : Args (RT := SymRuntime) :=
  example_args [1; 1] true "channels_middle" constant_init (Some 3).

(** The object of [DorefaConv2d(strides=(2,), in_channels=3)] when
    [__init__] calls [build]. *)
Definition short_strides_layer : DorefaConv2d (RT := SymRuntime) :=
  assign_attributes
    (example_args [2] false "channels_last" constant_init (Some 3)).

(** The object of [DorefaConv2d(data_format="channels_first",
    in_channels=16)] when [__init__] calls [build]. *)
Definition eager_layer : DorefaConv2d (RT := SymRuntime) :=
  assign_attributes
    (example_args [1; 1] false "channels_first" constant_init (Some 16)).

(** The object of [DorefaConv2d(data_format="channels_middle")]. *)
Definition bad_mode_layer : DorefaConv2d (RT := SymRuntime) :=
  assign_attributes
    (example_args [1; 1] false "channels_middle" constant_init None).

(** [DorefaConv2d()] *)
Definition default_args : Args (RT := SymRuntime) :=
  example_args [1; 1] false "channels_last" constant_init None.

(** [DorefaConv2d(data_format="channels_middle")] *)
Definition bad_mode_args : Args (RT := SymRuntime) :=
  example_args [1; 1] false "channels_middle" constant_init None.

(** [DorefaConv2d(data_format="channels_first", in_channels=16)] *)
Definition eager_args : Args (RT := SymRuntime) :=
  example_args [1; 1] false "channels_first" constant_init (Some 16).

(** The object of [DorefaConv2d(strides=(2, 3, 4))], were it kept. *)
Definition long_strides_layer : DorefaConv2d (RT := SymRuntime) :=
  assign_attributes
    (example_args [2; 3; 4] false "channels_last" constant_init None).

(** The object of [DorefaConv2d(act=relu, dilation_rate=(2, 2),
    padding="VALID", b_init=None, name="conv{1}")]. *)
Definition relu_layer : DorefaConv2d (RT := SymRuntime) :=
  assign_attributes
    {| kw_hyper :=
         {| bitW := 1; bitA := 3; n_filter := 32; filter_size := [3; 3];
            strides := [1; 1]; act := Some (SApply "relu");
            padding := "VALID"; use_gemm := false; dilation_rate := [2; 2];
            W_init := SParam "truncated_normal"; b_init := None;
            name := Some "conv{1}" |};
       kw_data_format := "channels_last";
       kw_in_channels := None |}.

(** The [__name__] of the symbolic activations. *)
Definition sym_name (f : Sym -> Sym) : string :=
  match f (SInput "") with
  | SApply fn _ => fn
  | _ => "<lambda>"
  end.

(** The objects of [DorefaConv2d(strides=(2, 3), dilation_rate=(4, 5))]
    and of the same with [data_format="channels_first"]. *)
Definition strided_layer (data_format_ : string)
    : DorefaConv2d (RT := SymRuntime) :=
  assign_attributes
    {| kw_hyper :=
         {| bitW := 1; bitA := 3; n_filter := 32; filter_size := [3; 3];
            strides := [2; 3]; act := None; padding := "SAME";
            use_gemm := false; dilation_rate := [4; 5];
            W_init := SParam "truncated_normal"; b_init := constant_init;
            name := Some "dorefa_cnn2d" |};
       kw_data_format := data_format_;
       kw_in_channels := None |}.

Definition strided_last_layer : DorefaConv2d (RT := SymRuntime) :=
  strided_layer "channels_last".

Definition strided_first_layer : DorefaConv2d (RT := SymRuntime) :=
  strided_layer "channels_first".

(** The object of [DorefaConv2d(name=None)]. *)
Definition unnamed_layer : DorefaConv2d (RT := SymRuntime) :=
  assign_attributes
    {| kw_hyper :=
         {| bitW := 1; bitA := 3; n_filter := 32; filter_size := [3; 3];
            strides := [1; 1]; act := None; padding := "SAME";
            use_gemm := false; dilation_rate := [1; 1];
            W_init := SParam "truncated_normal"; b_init := constant_init;
            name := None |};
       kw_data_format := "channels_last";
       kw_in_channels := None |}.

(** * Properties *)

Section Facts.

Context {RT : TensorRuntime}.

(** ** Strings and subscripts *)

Lemma canonical_tag_not_mode (mode tag : string) :
  canonical_tag mode = Some tag ->
  (tag =? "channels_last")%string = false /\
  (tag =? "channels_first")%string = false.
Proof.
  unfold canonical_tag.
  destruct (mode =? "channels_last")%string.
  - intros [= <-]. split; reflexivity.
  - destruct (mode =? "channels_first")%string.
    + intros [= <-]. split; reflexivity.
    + discriminate.
Qed.

Lemma canonical_tag_changes (mode tag : string) :
  canonical_tag mode = Some tag -> tag <> mode.
Proof.
  unfold canonical_tag.
  destruct (String.eqb_spec mode "channels_last") as [-> | _].
  - intros [= <-]. discriminate.
  - destruct (String.eqb_spec mode "channels_first") as [-> | _].
    + intros [= <-]. discriminate.
    + discriminate.
Qed.

Lemma subscript_pair_0 {A : Type} (x y : A) : subscript [x; y] 0 = inr x.
Proof. reflexivity. Qed.

Lemma subscript_pair_1 {A : Type} (x y : A) : subscript [x; y] 1 = inr y.
Proof. reflexivity. Qed.

Lemma subscript_1_nth {A : Type} (t : list A) (v : A) :
  nth_error t 1 = Some v -> subscript t 1 = inr v.
Proof. unfold subscript. simpl. intros ->. reflexivity. Qed.

Lemma subscript_last {A : Type} (t : list A) (d : A) :
  t <> [] -> subscript t (-1) = inr (last t d).
Proof.
  intros Hne. destruct (exists_last Hne) as (front & v & ->).
  unfold subscript, len. rewrite last_last, length_app, Nat.add_comm.
  change (-1 <? 0) with true. cbv iota zeta. simpl List.length.
  replace (-1 + Z.of_nat (1 + List.length front))
    with (Z.of_nat (List.length front)) by lia.
  destruct (Z.ltb_spec (Z.of_nat (List.length front)) 0) as [Hneg | _]; [lia |].
  rewrite Nat2Z.id, nth_error_app2, Nat.sub_diag by lia. reflexivity.
Qed.

Lemma subscript_inl {A : Type} (t : list A) (i : Z) (e : PyErr) :
  subscript t i = inl e -> e = IndexError.
Proof.
  unfold subscript.
  destruct ((if i <? 0 then i + len t else i) <? 0); [congruence |].
  destruct (nth_error t _); congruence.
Qed.

Lemma subscript_inl_other {A : Type} (t : list A) (i : Z) (e : PyErr) :
  subscript t i = inl e -> e <> data_format_error.
Proof. intros H. rewrite (subscript_inl _ _ _ H). discriminate. Qed.

Lemma subscript_opt_inl_other {A : Type} (s : option (list A)) (i : Z)
    (e : PyErr) :
  subscript_opt s i = inl e -> e <> data_format_error.
Proof.
  destruct s as [t |]; simpl.
  - apply subscript_inl_other.
  - intros [= <-]. discriminate.
Qed.

(** ** The object [build] leaves *)

Ltac run_step H :=
  match type of H with
  | context [match ?scrutinee with _ => _ end] =>
      lazymatch scrutinee with
      | context [match _ with _ => _ end] => fail
      | _ => destruct scrutinee eqn:?; simpl in H
      end
  end.

Ltac unfold_monad_in H :=
  unfold bind, ret, raise, gets, getattr, setattr, lift, when, _get_weights,
    logging_info in H.

Ltac unfold_monad :=
  unfold bind, ret, raise, gets, getattr, setattr, lift, when, _get_weights,
    logging_info.

(** Two objects with the same attributes are the same object. *)
Lemma object_ext (x y : DorefaConv2d) :
  hyper x = hyper y ->
  data_format x = data_format y ->
  in_channels x = in_channels y ->
  _strides x = _strides y ->
  _dilation_rate x = _dilation_rate y ->
  _built x = _built y ->
  pre_channel x = pre_channel y ->
  filter_shape x = filter_shape y ->
  W x = W y ->
  b x = b y ->
  _trainable_weights x = _trainable_weights y ->
  x = y.
Proof.
  destruct x, y. simpl. intros. subst. reflexivity.
Qed.

Ltac rewrite_tests :=
  repeat match goal with
         | E : ?t = _ |- context [?t] => rewrite E
         end.

Lemma resolved_eq (inputs_shape : option (list Z))
    (self obj obj' : DorefaConv2d) :
  resolved inputs_shape self obj' -> obj = obj' ->
  resolved inputs_shape self obj.
Proof. intros H ->. exact H. Qed.

Lemma build_inr_resolved (inputs_shape : option (list Z))
    (self obj : DorefaConv2d) :
  build inputs_shape self = (obj, inr tt) -> resolved inputs_shape self obj.
Proof.
  intros H. unfold build in H. unfold_monad_in H. unfold if_truthy in H.
  simpl in H.
  repeat run_step H; try discriminate.
  all: injection H as <-.
  all: eapply resolved_eq;
    [ eapply resolved_intro;
      [ unfold canonical_tag; rewrite_tests; reflexivity
      | unfold resolve_channels, if_truthy, channel_axis; rewrite_tests;
        reflexivity
      | eassumption .. ]
    | apply object_ext; simpl; unfold expand4, if_truthy; rewrite_tests;
      rewrite <- ?app_assoc; reflexivity ].
Qed.

Lemma resolved_build_inr (inputs_shape : option (list Z))
    (self obj : DorefaConv2d) :
  resolved inputs_shape self obj -> build inputs_shape self = (obj, inr tt).
Proof.
  intros [tag c s0 s1 d0 d1 f0 f1 Htag Hc Hs0 Hs1 Hd0 Hd1 Hf0 Hf1].
  unfold canonical_tag in Htag.
  unfold resolve_channels, channel_axis, if_truthy in Hc.
  unfold build. unfold_monad. unfold if_truthy.
  repeat run_step Htag; try discriminate; injection Htag as <-.
  all: repeat run_step Hc; try discriminate; try injection Hc as ->.
  all: repeat (progress (simpl; rewrite_tests)).
  all: destruct (b_init self) eqn:Hb; simpl; f_equal.
  all: apply object_ext; simpl; unfold expand4, if_truthy; rewrite_tests;
    rewrite <- ?app_assoc; reflexivity.
Qed.

(** [build] completes exactly when everything it reads resolves. *)
Lemma build_inr_iff (inputs_shape : option (list Z))
    (self obj : DorefaConv2d) :
  build inputs_shape self = (obj, inr tt) <-> resolved inputs_shape self obj.
Proof.
  split; [apply build_inr_resolved | apply resolved_build_inr].
Qed.

(** A [build] that raises either stopped at the channel-ordering test with
    the object untouched, or stopped later, the mode already rewritten and
    the channels, if they resolved, already stored. *)
Lemma build_inl_cases (inputs_shape : option (list Z))
    (self obj : DorefaConv2d) (e : PyErr) :
  build inputs_shape self = (obj, inl e) ->
  (canonical_tag (data_format self) = None /\
   e = data_format_error /\ obj = self) \/
  (exists tag, canonical_tag (data_format self) = Some tag /\
     e <> data_format_error /\ data_format obj = tag /\
     forall c, resolve_channels inputs_shape self = inr c ->
               pre_channel obj = Some c).
Proof.
  intros H. unfold build in H. unfold_monad_in H. unfold if_truthy in H.
  simpl in H.
  unfold canonical_tag, data_format_error, resolve_channels, channel_axis,
    if_truthy.
  repeat run_step H; try discriminate.
  all: injection H as <- <-.
  all: first
    [ left; repeat split; reflexivity
    | right; eexists; split; [reflexivity |]; split;
      [ eauto using @subscript_inl_other, @subscript_opt_inl_other
      | split; [reflexivity |]; rewrite_tests; simpl; congruence ] ].
Qed.

(** [build] stops at the channel-ordering test, the object untouched, when
    the mode is neither of the two it knows. *)
Lemma build_unknown_mode (inputs_shape : option (list Z))
    (self : DorefaConv2d) :
  canonical_tag (data_format self) = None ->
  build inputs_shape self = (self, inl data_format_error).
Proof.
  unfold canonical_tag, build. unfold_monad.
  destruct (data_format self =? "channels_last")%string; [discriminate |].
  destruct (data_format self =? "channels_first")%string; [discriminate |].
  reflexivity.
Qed.

Lemma canonical_tag_None (mode : string) :
  mode <> "channels_last" -> mode <> "channels_first" ->
  canonical_tag mode = None.
Proof.
  intros Hlast Hfirst. unfold canonical_tag.
  destruct (String.eqb_spec mode "channels_last"); [contradiction |].
  destruct (String.eqb_spec mode "channels_first"); [contradiction |].
  reflexivity.
Qed.

Lemma canonical_tag_of_tag (mode tag : string) :
  canonical_tag mode = Some tag -> canonical_tag tag = None.
Proof.
  intros H. destruct (canonical_tag_not_mode _ _ H) as [Hlast Hfirst].
  unfold canonical_tag. rewrite Hlast, Hfirst. reflexivity.
Qed.

Lemma truthy_int_true (c : Z) : truthy c = true <-> c <> 0.
Proof.
  unfold truthy, Truthy_int. destruct (Z.eqb_spec c 0); simpl.
  - split; [discriminate | contradiction].
  - split; [intros _; assumption | reflexivity].
Qed.

(** On a channels_last or channels_first layer, [build] stores the channels
    it resolved, whether or not it completes afterwards. *)
Lemma build_stores_resolved_channels (inputs_shape : option (list Z))
    (self : DorefaConv2d) :
  data_format self = "channels_last" \/ data_format self = "channels_first" ->
  forall c, resolve_channels inputs_shape self = inr c ->
            pre_channel (fst (build inputs_shape self)) = Some c.
Proof.
  intros Hmode c Hc.
  destruct (build inputs_shape self) as [obj [e | []]] eqn:Hrun; simpl.
  - destruct (build_inl_cases _ _ _ _ Hrun)
      as [(Hnone & _) | (tag & _ & _ & _ & Hch)].
    + unfold canonical_tag in Hnone.
      destruct Hmode as [Hm | Hm]; rewrite Hm in Hnone; discriminate.
    + apply Hch, Hc.
  - apply build_inr_resolved in Hrun.
    destruct Hrun as [tag c' s0 s1 d0 d1 f0 f1 _ Hc' _ _ _ _ _ _].
    simpl. congruence.
Qed.

(** ** [forward] *)

Lemma forward_state (x : Tensor) (self : DorefaConv2d) :
  fst (forward x self) = self.
Proof.
  unfold forward. unfold_monad. unfold if_truthy. simpl.
  destruct (W self); simpl; [| reflexivity].
  destruct (b_init self); simpl.
  - destruct (b self); simpl; [| reflexivity].
    destruct (act self); reflexivity.
  - destruct (act self); reflexivity.
Qed.

Lemma forward_calls_state (inputs : list Tensor) (self : DorefaConv2d) :
  forward_calls inputs self = self.
Proof.
  unfold forward_calls. induction inputs as [| x inputs IH]; simpl.
  - reflexivity.
  - rewrite forward_state. exact IH.
Qed.

(** What [forward] returns on an object that holds its parameters. *)
Lemma forward_with_parameters (x filters : Tensor) (self : DorefaConv2d) :
  W self = Some filters ->
  (b_init self <> None -> b self <> None) ->
  forward x self =
  (self,
   inr (let conv :=
          conv2d (quantize_active (cabs x) (bitA self))
            (quantize_weight filters (bitW self))
            (_strides self) (padding self) (data_format self)
            (_dilation_rate self) (name self) in
        let biased :=
          match b_init self, b self with
          | Some _, Some bias => bias_add conv bias (data_format self) "bias_add"
          | _, _ => conv
          end in
        if_truthy (act self) (fun f => f biased) biased)).
Proof.
  intros HW Hb. unfold forward. unfold_monad. unfold if_truthy. simpl.
  rewrite HW. simpl.
  destruct (b_init self); simpl.
  - destruct (b self); [| exfalso; apply Hb; congruence].
    destruct (act self); reflexivity.
  - destruct (act self); reflexivity.
Qed.

Lemma resolved_parameters (inputs_shape : option (list Z))
    (self obj : DorefaConv2d) :
  resolved inputs_shape self obj ->
  (exists filters, W obj = Some filters) /\
  (b_init obj <> None -> b obj <> None).
Proof.
  intros []. simpl. split; [eexists; reflexivity |].
  destruct (b_init self); congruence.
Qed.

(** Once the channels have resolved and the first two strides and dilations
    are read, [build] leaves the tag and the 4-element forms in the object,
    whether or not it completes afterwards. *)
Lemma build_layout (inputs_shape : option (list Z)) (self : DorefaConv2d)
    (tag : string) (c s0 s1 d0 d1 : Z) :
  canonical_tag (data_format self) = Some tag ->
  resolve_channels inputs_shape self = inr c ->
  subscript (_strides self) 0 = inr s0 ->
  subscript (_strides self) 1 = inr s1 ->
  subscript (_dilation_rate self) 0 = inr d0 ->
  subscript (_dilation_rate self) 1 = inr d1 ->
  let obj := fst (build inputs_shape self) in
  data_format obj = tag /\
  _strides obj = expand4 (data_format self) s0 s1 /\
  _dilation_rate obj = expand4 (data_format self) d0 d1.
Proof.
  intros Htag Hc Hs0 Hs1 Hd0 Hd1.
  unfold canonical_tag in Htag.
  unfold resolve_channels, channel_axis, if_truthy in Hc.
  unfold build. unfold_monad. unfold if_truthy, expand4.
  repeat run_step Htag; try discriminate; injection Htag as <-.
  all: repeat run_step Hc; try discriminate; try injection Hc as ->.
  all: repeat (progress (simpl; rewrite_tests)).
  all: destruct (subscript (filter_size self) 0); simpl;
    [repeat split |].
  all: destruct (subscript (filter_size self) 1); simpl;
    [repeat split |].
  all: destruct (b_init self); simpl; repeat split.
Qed.

Lemma canonical_tag_cases (mode tag : string) :
  canonical_tag mode = Some tag ->
  (mode = "channels_last" /\ tag = "NHWC") \/
  (mode = "channels_first" /\ tag = "NCHW").
Proof.
  unfold canonical_tag.
  destruct (String.eqb_spec mode "channels_last") as [-> | _].
  - intros [= <-]. left. split; reflexivity.
  - destruct (String.eqb_spec mode "channels_first") as [-> | _].
    + intros [= <-]. right. split; reflexivity.
    + discriminate.
Qed.

Lemma canonical_tag_known (mode : string) :
  mode = "channels_last" \/ mode = "channels_first" ->
  exists tag, canonical_tag mode = Some tag.
Proof.
  intros [-> | ->]; eexists; reflexivity.
Qed.

(** ** The claims about [forward] *)

(** C1. On every built layer, [forward] returns the value computed from the
    convolution whose activation operand is
    [quantize_active (cabs inputs) bitA]: the clipped-absolute transform is
    applied to the raw input and its result is what gets quantized to [bitA]
    bits. *)
Theorem forward_activation_operand (inputs_shape : option (list Z))
    (self obj : DorefaConv2d) (inputs : Tensor) :
  build inputs_shape self = (obj, inr tt) ->
  exists filters,
    W obj = Some filters /\
    forward inputs obj =
    (obj,
     inr (let conv :=
            conv2d (quantize_active (cabs inputs) (bitA obj))
              (quantize_weight filters (bitW obj))
              (_strides obj) (padding obj) (data_format obj)
              (_dilation_rate obj) (name obj) in
          let biased :=
            match b_init obj, b obj with
            | Some _, Some bias =>
                bias_add conv bias (data_format obj) "bias_add"
            | _, _ => conv
            end in
          if_truthy (act obj) (fun f => f biased) biased)).
Proof.
  intros H. apply build_inr_resolved in H.
  destruct (resolved_parameters _ _ _ H) as [[filters HW] Hb].
  exists filters. split; [exact HW |].
  apply forward_with_parameters; assumption.
Qed.

(** C3. Any number of [forward] calls leaves the layer object as it was, so
    the stored full-precision [W] and [b] are unchanged; each single call
    does, the quantized weights living only in its local [W_]. *)
Theorem forward_mutates_nothing (inputs : list Tensor) (self : DorefaConv2d) :
  forward_calls inputs self = self /\
  W (forward_calls inputs self) = W self /\
  b (forward_calls inputs self) = b self /\
  forall x, fst (forward x self) = self.
Proof.
  rewrite forward_calls_state.
  split; [reflexivity |]. split; [reflexivity |]. split; [reflexivity |].
  intros x. apply forward_state.
Qed.

(** ** The claims about [build] *)

(** C2. [build] on 2-element strides [(sh, sw)] and dilation [(dh, dw)]
    leaves the 4-element forms [(1, sh, sw, 1)] and [(1, dh, dw, 1)] in the
    object for channels_last, [(1, 1, sh, sw)] and [(1, 1, dh, dw)] for
    channels_first: in every call in which the input channels resolve,
    whatever happens afterwards, and so in every call that completes. *)
Theorem build_expands_strides_and_dilation (inputs_shape : option (list Z))
    (self : DorefaConv2d) (sh sw dh dw : Z) :
  _strides self = [sh; sw] ->
  _dilation_rate self = [dh; dw] ->
  let obj := fst (build inputs_shape self) in
  let expanded :=
    (data_format self = "channels_last" ->
     _strides obj = [1; sh; sw; 1] /\ _dilation_rate obj = [1; dh; dw; 1]) /\
    (data_format self = "channels_first" ->
     _strides obj = [1; 1; sh; sw] /\ _dilation_rate obj = [1; 1; dh; dw]) in
  ((exists c, resolve_channels inputs_shape self = inr c) -> expanded) /\
  (snd (build inputs_shape self) = inr tt -> expanded).
Proof.
  intros Hs Hd obj expanded.
  assert (Hresolved : (exists c, resolve_channels inputs_shape self = inr c) ->
                      expanded).
  { intros [c Hc]. subst expanded obj. split; intros Hmode.
    - destruct (build_layout inputs_shape self "NHWC" c sh sw dh dw)
        as (_ & Hstrides & Hdilation);
        try (rewrite ?Hs, ?Hd, ?Hmode; reflexivity); [exact Hc |].
      rewrite Hstrides, Hdilation, Hmode. split; reflexivity.
    - destruct (build_layout inputs_shape self "NCHW" c sh sw dh dw)
        as (_ & Hstrides & Hdilation);
        try (rewrite ?Hs, ?Hd, ?Hmode; reflexivity); [exact Hc |].
      rewrite Hstrides, Hdilation, Hmode. split; reflexivity. }
  split; [exact Hresolved |].
  intros Hdone. apply Hresolved.
  destruct (build inputs_shape self) as [built [e | []]] eqn:Hrun;
    [discriminate |].
  apply build_inr_resolved in Hrun.
  destruct Hrun as [tag c s0 s1 d0 d1 f0 f1 _ Hc _ _ _ _ _ _].
  exists c. exact Hc.
Qed.

(** C6. [build] on a layer whose [data_format] is neither channels_last nor
    channels_first raises the data_format error (a ConfigurationError),
    whatever the input shape. *)
Theorem build_rejects_unknown_data_format (inputs_shape : option (list Z))
    (self : DorefaConv2d) :
  data_format self <> "channels_last" ->
  data_format self <> "channels_first" ->
  build inputs_shape self = (self, inl data_format_error) /\
  ConfigurationError data_format_error.
Proof.
  intros Hlast Hfirst.
  rewrite build_unknown_mode by (apply canonical_tag_None; assumption).
  split; [reflexivity | right; reflexivity].
Qed.

(** C10. Once [build] has completed on a layer, every further [build] on it
    raises the data_format error, whatever the input shape: the first call
    left ['NHWC'] or ['NCHW'] in [data_format], which the test at the head
    of [build] does not accept. *)
Theorem build_again_raises (inputs_shape : option (list Z))
    (self obj : DorefaConv2d) :
  build inputs_shape self = (obj, inr tt) ->
  (data_format obj = "NHWC" \/ data_format obj = "NCHW") /\
  forall inputs_shape', build inputs_shape' obj = (obj, inl data_format_error).
Proof.
  intros H. apply build_inr_resolved in H.
  destruct H as [tag c s0 s1 d0 d1 f0 f1 Htag _ _ _ _ _ _ _].
  split.
  - simpl. unfold canonical_tag in Htag.
    destruct (data_format self =? "channels_last")%string.
    + left. congruence.
    + destruct (data_format self =? "channels_first")%string.
      * right. congruence.
      * discriminate.
  - intros inputs_shape'. apply build_unknown_mode. simpl.
    exact (canonical_tag_of_tag _ _ Htag).
Qed.


(** C8. A [build] on a channels_last or channels_first layer resolves the
    input-channel count to the configured [in_channels] when one was given
    (any int but 0, so every positive count), and otherwise to the entry of
    the input shape at the last axis for channels_last, at index 1 for
    channels_first. The count is stored as soon as it is resolved, also when
    [build] raises further on. *)
Theorem build_resolves_input_channels (inputs_shape : option (list Z))
    (self : DorefaConv2d) :
  data_format self = "channels_last" \/ data_format self = "channels_first" ->
  let obj := fst (build inputs_shape self) in
  (forall c, in_channels self = Some c -> c <> 0 -> pre_channel obj = Some c) /\
  (forall dims, in_channels self = None -> inputs_shape = Some dims ->
     (data_format self = "channels_last" -> dims <> [] ->
      pre_channel obj = Some (last dims 0)) /\
     (data_format self = "channels_first" ->
      forall c, nth_error dims 1 = Some c -> pre_channel obj = Some c)).
Proof.
  intros Hmode obj.
  pose proof (build_stores_resolved_channels inputs_shape self Hmode) as Hpre.
  fold obj in Hpre.
  split.
  - intros c Hic Hnz. apply Hpre. unfold resolve_channels, if_truthy.
    rewrite Hic. apply truthy_int_true in Hnz. rewrite Hnz. reflexivity.
  - intros dims Hic ->. split.
    + intros Hm Hne. apply Hpre.
      unfold resolve_channels, if_truthy, channel_axis.
      rewrite Hic, Hm. simpl. apply subscript_last, Hne.
    + intros Hm c Hnth. apply Hpre.
      unfold resolve_channels, if_truthy, channel_axis.
      rewrite Hic, Hm. simpl. apply subscript_1_nth, Hnth.
Qed.

(** [if self.in_channels:] takes a configured 0 for no configured value:
    the channels are then read from the input shape like for [None]. *)
Remark zero_in_channels_reads_the_shape (self : DorefaConv2d)
    (dims : list Z) :
  data_format self = "channels_last" ->
  in_channels self = Some 0 ->
  dims <> [] ->
  pre_channel (fst (build (Some dims) self)) = Some (last dims 0).
Proof.
  intros Hm Hic Hne.
  apply build_stores_resolved_channels; [left; exact Hm |].
  unfold resolve_channels, if_truthy, channel_axis.
  rewrite Hic, Hm. simpl. apply subscript_last, Hne.
Qed.

(** C9, as the code has it. A [build] that raises the data_format error
    leaves the layer object as it was before the call; a [build] that raises
    any other error has already rewritten [data_format] to its canonical
    tag, ['NHWC'] for channels_last and ['NCHW'] for channels_first. *)
Theorem build_failure_state (inputs_shape : option (list Z))
    (self obj : DorefaConv2d) (e : PyErr) :
  build inputs_shape self = (obj, inl e) ->
  (e = data_format_error -> obj = self) /\
  (e <> data_format_error ->
   ((data_format self = "channels_last" /\ data_format obj = "NHWC") \/
    (data_format self = "channels_first" /\ data_format obj = "NCHW")) /\
   data_format obj <> data_format self).
Proof.
  intros H.
  destruct (build_inl_cases _ _ _ _ H)
    as [(_ & He & Hobj) | (tag & Htag & He & Hdf & _)].
  - split; [intros _; exact Hobj | intros Hne; contradiction].
  - split; [intros Heq; contradiction |].
    intros _. rewrite Hdf. split.
    + exact (canonical_tag_cases _ _ Htag).
    + exact (canonical_tag_changes _ _ Htag).
Qed.

Lemma build_inr_hyper (inputs_shape : option (list Z))
    (self obj : DorefaConv2d) :
  build inputs_shape self = (obj, inr tt) -> hyper obj = hyper self.
Proof.
  intros H. apply build_inr_resolved in H. destruct H. reflexivity.
Qed.

(** The checks at the end of [__init__], on the object the eager [build], if
    any, has left. *)
Lemma init_run (kw : Args) :
  let self := assign_attributes kw in
  let eager := if_truthy (kw_in_channels kw) (fun _ => true) false in
  let checks := fun obj : DorefaConv2d =>
    if use_gemm kw then (obj, inl gemm_error)
    else if negb (len (strides kw) =? 2) then (obj, inl strides_error)
    else (obj, inr tt) in
  __init__ kw =
  if eager then
    match build None self with
    | (obj, inr _) => checks (set__built true obj)
    | (obj, inl e) => (obj, inl e)
    end
  else checks self.
Proof.
  unfold __init__. unfold_monad. unfold if_truthy, gemm_error, strides_error.
  simpl.
  destruct (kw_in_channels kw) as [c |]; simpl.
  - destruct (truthy c); simpl.
    + destruct (build None (assign_attributes kw)) as [obj [e | []]] eqn:Hrun;
        simpl; [reflexivity |].
      pose proof (build_inr_hyper _ _ _ Hrun) as Hhyper. simpl in Hhyper.
      rewrite Hhyper. unfold truthy, Truthy_bool.
      destruct (use_gemm kw); simpl; [reflexivity |].
      rewrite Hhyper.
      destruct (len (strides kw) =? 2); reflexivity.
    + unfold truthy, Truthy_bool.
      destruct (use_gemm kw); simpl; [reflexivity |].
      destruct (len (strides kw) =? 2); reflexivity.
  - unfold truthy, Truthy_bool.
    destruct (use_gemm kw); simpl; [reflexivity |].
    destruct (len (strides kw) =? 2); reflexivity.
Qed.

(** C4, as the code has it. A construction whose [strides] does not have
    exactly 2 elements fails; it fails with the ValueError
    "len(strides) should be 2." (a ConfigurationError) when [use_gemm] is
    not selected and the [build] that [__init__] runs first when
    [in_channels] is given has completed. *)
Theorem init_checks_strides_arity (kw : Args) :
  len (strides kw) <> 2 ->
  exists obj e,
    __init__ kw = (obj, inl e) /\
    (use_gemm kw = false ->
     (forall c, kw_in_channels kw = Some c -> c <> 0 ->
        exists built, build None (assign_attributes kw) = (built, inr tt)) ->
     e = strides_error /\ ConfigurationError e).
Proof.
  intros Hlen. rewrite init_run. cbv zeta.
  assert (Hneq : negb (len (strides kw) =? 2) = true).
  { destruct (Z.eqb_spec (len (strides kw)) 2); [contradiction | reflexivity]. }
  rewrite Hneq.
  assert (Hchecks : forall obj : DorefaConv2d,
    exists obj' e,
      (if use_gemm kw then (obj, inl gemm_error)
       else (obj, @inl PyErr unit strides_error)) = (obj', inl e) /\
      (use_gemm kw = false -> e = strides_error /\ ConfigurationError e)).
  { intros obj. destruct (use_gemm kw).
    - do 2 eexists. split; [reflexivity | discriminate].
    - do 2 eexists. split; [reflexivity |].
      intros _. split; [reflexivity | left; reflexivity]. }
  unfold if_truthy.
  destruct (kw_in_channels kw) as [c |].
  - destruct (truthy c) eqn:Hc.
    + apply truthy_int_true in Hc.
      destruct (build None (assign_attributes kw)) as [built [e | []]] eqn:Hrun.
      * exists built, e. split; [reflexivity |].
        intros _ Hbuild. destruct (Hbuild c eq_refl Hc) as [built' Hok].
        discriminate.
      * destruct (Hchecks (set__built true built)) as (obj' & e & Hrun' & He).
        exists obj', e. split; [exact Hrun' | intros Hg _; exact (He Hg)].
    + destruct (Hchecks (assign_attributes kw)) as (obj' & e & Hrun' & He).
      exists obj', e. split; [exact Hrun' | intros Hg _; exact (He Hg)].
  - destruct (Hchecks (assign_attributes kw)) as (obj' & e & Hrun' & He).
    exists obj', e. split; [exact Hrun' | intros Hg _; exact (He Hg)].
Qed.

(** C5, as the code has it. A construction with [use_gemm] selected fails:
    with the Exception "TODO. ..." (the UnsupportedFeatureError) when the
    [build] that [__init__] runs first when [in_channels] is given has
    completed, and with the error of that [build] when it raised. *)
Theorem init_rejects_use_gemm (kw : Args) :
  use_gemm kw = true ->
  exists obj e,
    __init__ kw = (obj, inl e) /\
    ((forall c, kw_in_channels kw = Some c -> c <> 0 ->
        exists built, build None (assign_attributes kw) = (built, inr tt)) ->
     e = gemm_error /\ UnsupportedFeatureError e) /\
    (forall c built e', kw_in_channels kw = Some c -> c <> 0 ->
        build None (assign_attributes kw) = (built, inl e') -> e = e').
Proof.
  intros Hgemm. rewrite init_run. cbv zeta. rewrite Hgemm. unfold if_truthy.
  destruct (kw_in_channels kw) as [c |].
  - destruct (truthy c) eqn:Hc.
    + apply truthy_int_true in Hc.
      destruct (build None (assign_attributes kw)) as [built [e | []]] eqn:Hrun.
      * exists built, e. split; [reflexivity |]. split.
        -- intros Hbuild. destruct (Hbuild c eq_refl Hc) as [built' Hok].
           discriminate.
        -- intros c' built' e' _ _ [= _ <-]. reflexivity.
      * do 2 eexists. split; [reflexivity |]. split.
        -- intros _. split; reflexivity.
        -- intros c' built' e' _ _ [=].
    + do 2 eexists. split; [reflexivity |]. split.
      * intros _. split; reflexivity.
      * intros c' built' e' [= <-] Hnz. apply truthy_int_true in Hnz.
        congruence.
  - do 2 eexists. split; [reflexivity |]. split.
    + intros _. split; reflexivity.
    + intros c' built' e' [=].
Qed.

End Facts.



(** * The claims on concrete layers

    Every tensor below is an expression of the symbolic runtime, so the
    operands of each primitive show in the results. *)

Ltac evaluate := vm_compute; reflexivity.

(** On the symbolic runtime the two orders of the activation transforms are
    different expressions. *)
Lemma quantize_of_cabs_is_not_cabs_of_quantize (x : Sym) (bits : Z) :
  quantize_active (cabs x) bits <> cabs (quantize_active x bits).
Proof. discriminate. Qed.

Lemma forward_activation_operand_witness :
  build (Some [8; 28; 28; 3]) lazy_layer = (built_lazy_layer, inr tt) /\
  exists filters,
    W built_lazy_layer = Some filters /\
    forward (SInput "x") built_lazy_layer =
    (built_lazy_layer,
     inr (SBiasAdd
            (SConv2d (SQuantizeActive (SCabs (SInput "x")) 3)
               (SQuantizeWeight filters 1)
               [1; 1; 1; 1] "SAME" "NHWC" [1; 1; 1; 1]
               (Some "dorefa_cnn2d"))
            (SParam "constant" [32]) "NHWC" "bias_add")).
Proof.
  assert (Hrun : build (Some [8; 28; 28; 3]) lazy_layer
                 = (built_lazy_layer, inr tt)) by evaluate.
  split; [exact Hrun |].
  pose proof (forward_activation_operand (Some [8; 28; 28; 3]) lazy_layer
                built_lazy_layer (SInput "x") Hrun) as Hforward.
  vm_compute in Hforward |- *. exact Hforward.
Defined.

Lemma build_expands_strides_and_dilation_witness :
  (_strides strided_last_layer = [2; 3] /\
   _dilation_rate strided_last_layer = [4; 5] /\
   snd (build (Some [8; 28; 28; 3]) strided_last_layer) = inr tt /\
   _strides (fst (build (Some [8; 28; 28; 3]) strided_last_layer))
   = [1; 2; 3; 1] /\
   _dilation_rate (fst (build (Some [8; 28; 28; 3]) strided_last_layer))
   = [1; 4; 5; 1]) /\
  (_strides strided_first_layer = [2; 3] /\
   _dilation_rate strided_first_layer = [4; 5] /\
   snd (build (Some [8; 3; 28; 28]) strided_first_layer) = inr tt /\
   _strides (fst (build (Some [8; 3; 28; 28]) strided_first_layer))
   = [1; 1; 2; 3] /\
   _dilation_rate (fst (build (Some [8; 3; 28; 28]) strided_first_layer))
   = [1; 1; 4; 5]).
Proof.
  split.
  - assert (Hs : _strides strided_last_layer = [2; 3]) by evaluate.
    assert (Hd : _dilation_rate strided_last_layer = [4; 5]) by evaluate.
    assert (Hdone : snd (build (Some [8; 28; 28; 3]) strided_last_layer)
                    = inr tt) by evaluate.
    assert (Hmode : data_format strided_last_layer = "channels_last")
      by evaluate.
    split; [exact Hs |]. split; [exact Hd |]. split; [exact Hdone |].
    exact (proj1 (proj2 (build_expands_strides_and_dilation
                           (Some [8; 28; 28; 3]) strided_last_layer 2 3 4 5
                           Hs Hd) Hdone) Hmode).
  - assert (Hs : _strides strided_first_layer = [2; 3]) by evaluate.
    assert (Hd : _dilation_rate strided_first_layer = [4; 5]) by evaluate.
    assert (Hdone : snd (build (Some [8; 3; 28; 28]) strided_first_layer)
                    = inr tt) by evaluate.
    assert (Hmode : data_format strided_first_layer = "channels_first")
      by evaluate.
    split; [exact Hs |]. split; [exact Hd |]. split; [exact Hdone |].
    exact (proj2 (proj2 (build_expands_strides_and_dilation
                           (Some [8; 3; 28; 28]) strided_first_layer 2 3 4 5
                           Hs Hd) Hdone) Hmode).
Defined.

Lemma build_rejects_unknown_data_format_witness :
  data_format bad_mode_layer <> "channels_last" /\
  data_format bad_mode_layer <> "channels_first" /\
  build (Some [8; 28; 28; 3]) bad_mode_layer =
    (bad_mode_layer, inl data_format_error) /\
  ConfigurationError data_format_error.
Proof.
  assert (Hlast : data_format bad_mode_layer <> "channels_last")
    by (vm_compute; discriminate).
  assert (Hfirst : data_format bad_mode_layer <> "channels_first")
    by (vm_compute; discriminate).
  split; [exact Hlast |]. split; [exact Hfirst |].
  exact (build_rejects_unknown_data_format (Some [8; 28; 28; 3])
           bad_mode_layer Hlast Hfirst).
Defined.

Lemma build_again_raises_witness :
  build (Some [8; 28; 28; 3]) lazy_layer = (built_lazy_layer, inr tt) /\
  data_format built_lazy_layer = "NHWC" /\
  build (Some [8; 28; 28; 3]) built_lazy_layer =
    (built_lazy_layer, inl data_format_error) /\
  build None built_lazy_layer = (built_lazy_layer, inl data_format_error).
Proof.
  assert (Hrun : build (Some [8; 28; 28; 3]) lazy_layer
                 = (built_lazy_layer, inr tt)) by evaluate.
  split; [exact Hrun |]. split; [evaluate |].
  pose proof (proj2 (build_again_raises (Some [8; 28; 28; 3]) lazy_layer
                       built_lazy_layer Hrun)) as Hagain.
  split; apply Hagain.
Defined.


Lemma build_resolves_input_channels_witness :
  (data_format lazy_layer = "channels_last" \/
   data_format lazy_layer = "channels_first") /\
  (data_format eager_layer = "channels_last" \/
   data_format eager_layer = "channels_first") /\
  pre_channel (fst (build (Some [8; 28; 28; 3]) lazy_layer)) = Some 3 /\
  pre_channel (fst (build None eager_layer)) = Some 16.
Proof.
  assert (Hlazy : data_format lazy_layer = "channels_last") by evaluate.
  assert (Heager : data_format eager_layer = "channels_first") by evaluate.
  assert (Hnone : in_channels lazy_layer = None) by evaluate.
  assert (Hsome : in_channels eager_layer = Some 16) by evaluate.
  split; [left; exact Hlazy |]. split; [right; exact Heager |]. split.
  - pose proof (proj1 (proj2 (build_resolves_input_channels
                                (Some [8; 28; 28; 3]) lazy_layer
                                (or_introl Hlazy))
                         [8; 28; 28; 3] Hnone eq_refl) Hlazy) as Hlast.
    apply Hlast. discriminate.
  - apply (proj1 (build_resolves_input_channels None eager_layer
                    (or_intror Heager)) 16 Hsome).
    discriminate.
Defined.

(** C9 fails on [DorefaConv2d(strides=(2,), in_channels=3)]: the [build]
    that [__init__] calls raises IndexError on [self._strides[1]], after it
    has rewritten [data_format] and stored [pre_channel]. *)
Lemma build_is_not_atomic :
  exists obj e,
    build None short_strides_layer = (obj, inl e) /\
    data_format short_strides_layer = "channels_last" /\
    data_format obj = "NHWC" /\
    pre_channel short_strides_layer = None /\
    pre_channel obj = Some 3 /\
    obj <> short_strides_layer.
Proof.
  do 2 eexists. split; [evaluate |].
  split; [evaluate |]. split; [evaluate |].
  split; [evaluate |]. split; [evaluate |].
  intros Heq. apply (f_equal pre_channel) in Heq.
  vm_compute in Heq. discriminate.
Qed.

Lemma build_failure_state_witness :
  (build None short_strides_layer =
     (fst (build None short_strides_layer), inl IndexError) /\
   IndexError <> data_format_error /\
   data_format short_strides_layer = "channels_last" /\
   data_format (fst (build None short_strides_layer)) = "NHWC") /\
  (build None bad_mode_layer = (bad_mode_layer, inl data_format_error) /\
   fst (build None bad_mode_layer) = bad_mode_layer).
Proof.
  split.
  - assert (Hrun : build None short_strides_layer
                   = (fst (build None short_strides_layer), inl IndexError))
      by evaluate.
    assert (He : IndexError <> data_format_error) by discriminate.
    split; [exact Hrun |]. split; [exact He |].
    destruct (proj1 (proj2 (build_failure_state None short_strides_layer
                              _ _ Hrun) He))
      as [[Hmode Htag] | [Hmode Htag]].
    + split; [exact Hmode | exact Htag].
    + vm_compute in Hmode. discriminate.
  - assert (Hrun : build None bad_mode_layer
                   = (fst (build None bad_mode_layer), inl data_format_error))
      by evaluate.
    pose proof (proj1 (build_failure_state None bad_mode_layer _ _ Hrun)
                  eq_refl) as Hsame.
    split; [rewrite <- Hsame at 2; exact Hrun | exact Hsame].
Defined.

(** C4 fails on [DorefaConv2d(strides=(1, 1, 1), use_gemm=True)]: the
    [use_gemm] test comes first and raises its own error. *)
Lemma gemm_error_precedes_strides_error :
  len (strides gemm_three_strides_args) <> 2 /\
  snd (__init__ gemm_three_strides_args) = inl gemm_error /\
  ~ ConfigurationError gemm_error.
Proof.
  split; [vm_compute; discriminate |]. split; [evaluate |].
  intros [H | H]; discriminate.
Qed.

Lemma init_checks_strides_arity_witness :
  len (strides three_strides_args) <> 2 /\
  snd (__init__ three_strides_args) = inl strides_error.
Proof.
  assert (Hlen : len (strides three_strides_args) <> 2)
    by (vm_compute; discriminate).
  split; [exact Hlen |].
  destruct (init_checks_strides_arity three_strides_args Hlen)
    as (obj & e & Hrun & He).
  rewrite Hrun. simpl. f_equal. apply He.
  - evaluate.
  - intros c Hc. vm_compute in Hc. discriminate.
Defined.

(** C5 fails on [DorefaConv2d(use_gemm=True, data_format="channels_middle",
    in_channels=3)]: [__init__] runs [build] before it looks at [use_gemm],
    and the error of [build] is the one the construction raises. *)
Lemma build_error_precedes_gemm_error :
  use_gemm gemm_bad_mode_args = true /\
  snd (__init__ gemm_bad_mode_args) = inl data_format_error /\
  ~ UnsupportedFeatureError data_format_error.
Proof.
  split; [evaluate |]. split; [evaluate |].
  unfold UnsupportedFeatureError. discriminate.
Qed.

Lemma init_rejects_use_gemm_witness :
  use_gemm gemm_args = true /\
  snd (__init__ gemm_args) = inl gemm_error.
Proof.
  assert (Hgemm : use_gemm gemm_args = true) by evaluate.
  split; [exact Hgemm |].
  destruct (init_rejects_use_gemm gemm_args Hgemm)
    as (obj & e & Hrun & He & _).
  rewrite Hrun. simpl. f_equal. apply He.
  intros c Hc. vm_compute in Hc. discriminate.
Defined.

(** * More of the layer's behaviour *)

Section Lifecycle.

Context {RT : TensorRuntime}.

(** ** Subscripts 0 and 1 *)

Lemma subscript_cons_0 {A : Type} (x : A) (rest : list A) :
  subscript (x :: rest) 0 = inr x.
Proof. reflexivity. Qed.

Lemma subscript_cons_1 {A : Type} (x y : A) (rest : list A) :
  subscript (x :: y :: rest) 1 = inr y.
Proof. reflexivity. Qed.

Lemma subscript_01_inv {A : Type} (t : list A) (x y : A) :
  subscript t 0 = inr x -> subscript t 1 = inr y ->
  exists rest, t = x :: y :: rest.
Proof.
  destruct t as [| x' [| y' rest]]; cbn; try discriminate.
  intros [= <-] [= <-]. exists rest. reflexivity.
Qed.

Lemma len_two {A : Type} (t : list A) :
  2 <= len t <-> exists x y rest, t = x :: y :: rest.
Proof.
  unfold len. split.
  - destruct t as [| x [| y rest]]; cbn [List.length]; try lia.
    intros _. exists x, y, rest. reflexivity.
  - intros (x & y & rest & ->). cbn [List.length]. lia.
Qed.

Lemma subscript_short {A : Type} (t : list A) :
  len t < 2 -> subscript t 0 = inl IndexError \/ subscript t 1 = inl IndexError.
Proof.
  unfold len. destruct t as [| x [| y rest]]; cbn [List.length]; try lia.
  - intros _. left. reflexivity.
  - intros _. right. reflexivity.
Qed.

Lemma canonical_tag_Some (mode : string) :
  canonical_tag mode <> None <->
  mode = "channels_last" \/ mode = "channels_first".
Proof.
  unfold canonical_tag.
  destruct (String.eqb_spec mode "channels_last") as [-> | Hlast].
  - split; [intros _; left; reflexivity | discriminate].
  - destruct (String.eqb_spec mode "channels_first") as [-> | Hfirst].
    + split; [intros _; right; reflexivity | discriminate].
    + split; [congruence | intros [? | ?]; contradiction].
Qed.

Lemma falsy_in_channels (ic : option Z) :
  ic = None \/ ic = Some 0 ->
  forall (B : Type) (then_ : Z -> B) (else_ : B),
    if_truthy ic then_ else_ = else_.
Proof. intros [-> | ->] B then_ else_; reflexivity. Qed.

Lemma truthy_in_channels (c : Z) :
  c <> 0 ->
  forall (B : Type) (then_ : Z -> B) (else_ : B),
    if_truthy (Some c) then_ else_ = then_ c.
Proof.
  intros Hc B then_ else_. unfold if_truthy.
  apply truthy_int_true in Hc. rewrite Hc. reflexivity.
Qed.

(** ** When [build] completes *)

Lemma build_inr_requirements (inputs_shape : option (list Z))
    (self obj : DorefaConv2d) :
  build inputs_shape self = (obj, inr tt) ->
  (data_format self = "channels_last" \/ data_format self = "channels_first") /\
  (exists c, resolve_channels inputs_shape self = inr c) /\
  2 <= len (_strides self) /\
  2 <= len (_dilation_rate self) /\
  2 <= len (filter_size self).
Proof.
  intros H. apply build_inr_resolved in H.
  destruct H as [tag c s0 s1 d0 d1 f0 f1 Htag Hc Hs0 Hs1 Hd0 Hd1 Hf0 Hf1].
  split; [apply canonical_tag_Some; congruence |].
  split; [exists c; exact Hc |].
  destruct (subscript_01_inv _ _ _ Hs0 Hs1) as [rs Hs].
  destruct (subscript_01_inv _ _ _ Hd0 Hd1) as [rd Hd].
  destruct (subscript_01_inv _ _ _ Hf0 Hf1) as [rf Hf].
  repeat split; apply len_two; eauto.
Qed.

(** [build] can only complete on a channels_last or channels_first layer
    whose input channels resolve and whose [_strides], [_dilation_rate] and
    [filter_size] have two elements or more: on any other layer it raises.
    It asks for two elements at least, not for exactly two. *)
Theorem build_completes_only_if (inputs_shape : option (list Z))
    (self obj : DorefaConv2d) :
  build inputs_shape self = (obj, inr tt) ->
  (data_format self = "channels_last" \/ data_format self = "channels_first") /\
  (exists c, resolve_channels inputs_shape self = inr c) /\
  2 <= len (_strides self) /\
  2 <= len (_dilation_rate self) /\
  2 <= len (filter_size self).
Proof. exact (build_inr_requirements inputs_shape self obj). Qed.

(** A completed [build] reads the first two elements of [_strides] and of
    [_dilation_rate] and drops the others without a word. *)
Theorem build_ignores_extra_elements (inputs_shape : option (list Z))
    (self obj : DorefaConv2d) (s0 s1 d0 d1 : Z) (rs rd : list Z) :
  build inputs_shape self = (obj, inr tt) ->
  _strides self = s0 :: s1 :: rs ->
  _dilation_rate self = d0 :: d1 :: rd ->
  (data_format self = "channels_last" ->
   _strides obj = [1; s0; s1; 1] /\ _dilation_rate obj = [1; d0; d1; 1]) /\
  (data_format self = "channels_first" ->
   _strides obj = [1; 1; s0; s1] /\ _dilation_rate obj = [1; 1; d0; d1]).
Proof.
  intros H Hs Hd. apply build_inr_resolved in H.
  destruct H as [tag c s0' s1' d0' d1' f0 f1 _ _ Hs0 Hs1 Hd0 Hd1 _ _].
  rewrite Hs in Hs0, Hs1. rewrite Hd in Hd0, Hd1.
  rewrite subscript_cons_0 in Hs0, Hd0. rewrite subscript_cons_1 in Hs1, Hd1.
  injection Hs0 as <-. injection Hs1 as <-.
  injection Hd0 as <-. injection Hd1 as <-.
  simpl. unfold expand4.
  split; intros ->; split; reflexivity.
Qed.

(** A completed [build] stores the filter shape
    [(filter_size[0], filter_size[1], pre_channel, n_filter)], whatever the
    channel ordering, allocates [W] with [W_init] over it and registers it
    as "filters". *)
Theorem build_filter_shape (inputs_shape : option (list Z))
    (self obj : DorefaConv2d) :
  build inputs_shape self = (obj, inr tt) ->
  exists f0 f1 rest c,
    filter_size self = f0 :: f1 :: rest /\
    pre_channel obj = Some c /\
    filter_shape obj = Some [f0; f1; c; n_filter self] /\
    W obj = Some (W_init self [f0; f1; c; n_filter self]) /\
    In ("filters", [f0; f1; c; n_filter self],
        W_init self [f0; f1; c; n_filter self])
       (_trainable_weights obj).
Proof.
  intros H. apply build_inr_resolved in H.
  destruct H as [tag c s0 s1 d0 d1 f0 f1 _ _ _ _ _ _ Hf0 Hf1].
  destruct (subscript_01_inv _ _ _ Hf0 Hf1) as [rest Hf].
  exists f0, f1, rest, c. simpl.
  repeat split; try reflexivity; try assumption.
  apply in_or_app. right. left. reflexivity.
Qed.

(** After a completed [build], [in_channels] holds the resolved count: it
    is kept when it was configured and overwritten with the entry of the
    input shape when it was not. *)
Theorem build_in_channels (inputs_shape : option (list Z))
    (self obj : DorefaConv2d) :
  build inputs_shape self = (obj, inr tt) ->
  exists c,
    pre_channel obj = Some c /\
    in_channels obj = Some c /\
    resolve_channels inputs_shape self = inr c.
Proof.
  intros H. apply build_inr_resolved in H.
  destruct H as [tag c s0 s1 d0 d1 f0 f1 _ Hc _ _ _ _ _ _].
  exists c. simpl. split; [reflexivity |]. split; [| exact Hc].
  unfold resolve_channels, if_truthy in *.
  destruct (in_channels self) as [c' |]; [| reflexivity].
  destruct (truthy c'); [congruence | reflexivity].
Qed.

(** ** When [build] raises *)

Ltac split_run H :=
  match type of H with
  | context [match ?scrutinee with _ => _ end] =>
      lazymatch scrutinee with
      | context [match _ with _ => _ end] => fail
      | _ => destruct scrutinee eqn:?; simpl in H
      end
  end.

Ltac open_method H :=
  unfold bind, ret, raise, gets, getattr, setattr, lift, when, _get_weights,
    logging_info, if_truthy in H;
  simpl in H.

Ltac use_tests :=
  repeat match goal with
         | E : ?t = _ |- context [?t] => rewrite E
         end.

Lemma build_inl_detail (inputs_shape : option (list Z))
    (self obj : DorefaConv2d) (e : PyErr) :
  build inputs_shape self = (obj, inl e) ->
  (hyper obj = hyper self /\ _built obj = _built self /\
   filter_shape obj = filter_shape self /\ W obj = W self /\
   b obj = b self /\ _trainable_weights obj = _trainable_weights self) /\
  (canonical_tag (data_format self) = None -> e = data_format_error) /\
  (canonical_tag (data_format self) <> None ->
   (forall e', resolve_channels inputs_shape self = inl e' -> e = e') /\
   (forall c, resolve_channels inputs_shape self = inr c -> e = IndexError)).
Proof.
  intros H. unfold build in H. open_method H.
  unfold canonical_tag, data_format_error, resolve_channels, channel_axis,
    if_truthy.
  repeat split_run H; try discriminate.
  all: injection H as <- <-.
  all: repeat match goal with
              | E : subscript _ _ = inl _ |- _ =>
                  apply subscript_inl in E; subst
              end.
  all: use_tests; simpl.
  all: split; [repeat split |].
  all: split; [try discriminate; reflexivity |].
  all: intros Hmode; try (exfalso; apply Hmode; reflexivity).
  all: split; [intros ? ?; congruence | intros ? ?; congruence].
Qed.

Lemma resolve_channels_inl (inputs_shape : option (list Z))
    (self : DorefaConv2d) (e : PyErr) :
  resolve_channels inputs_shape self = inl e ->
  (in_channels self = None \/ in_channels self = Some 0) /\
  ((inputs_shape = None /\ e = TypeError) \/
   (inputs_shape <> None /\ e = IndexError)).
Proof.
  unfold resolve_channels, if_truthy. intros H.
  assert (Hshape : subscript_opt inputs_shape
                     (channel_axis (data_format self)) = inl e ->
                   (inputs_shape = None /\ e = TypeError) \/
                   (inputs_shape <> None /\ e = IndexError)).
  { destruct inputs_shape as [dims |]; simpl.
    - intros Hs. right. split; [discriminate | exact (subscript_inl _ _ _ Hs)].
    - intros [= <-]. left. split; reflexivity. }
  destruct (in_channels self) as [c |].
  - destruct (truthy c) eqn:Hc; [discriminate |].
    split; [| exact (Hshape H)].
    right. f_equal. unfold truthy, Truthy_int in Hc.
    destruct (Z.eqb_spec c 0); [assumption | discriminate].
  - split; [left; reflexivity | exact (Hshape H)].
Qed.

(** What makes a layer unfit for [build]: an unknown [data_format], input
    channels that do not resolve, or fewer than two elements in [_strides],
    [_dilation_rate] or [filter_size]. *)
Lemma malformed_build_raises (inputs_shape : option (list Z))
    (self : DorefaConv2d) :
  (data_format self <> "channels_last" /\
   data_format self <> "channels_first") \/
  (exists e, resolve_channels inputs_shape self = inl e) \/
  len (_strides self) < 2 \/
  len (_dilation_rate self) < 2 \/
  len (filter_size self) < 2 ->
  exists obj e, build inputs_shape self = (obj, inl e).
Proof.
  intros Hbad.
  destruct (build inputs_shape self) as [obj [e | []]] eqn:Hrun;
    [exists obj, e; reflexivity |].
  exfalso.
  destruct (build_inr_requirements _ _ _ Hrun)
    as (Hmode & [c Hc] & Hs & Hd & Hf).
  destruct Hbad as [[Hlast Hfirst] | [[e He] | [Hlt | [Hlt | Hlt]]]];
    try lia.
  - destruct Hmode; contradiction.
  - congruence.
Qed.

(** On a layer unfit for it, [build] raises before it allocates anything:
    [filter_shape], [W], [b], the registered parameters and [_built] are
    as before the call. *)
Theorem malformed_build_allocates_nothing (inputs_shape : option (list Z))
    (self : DorefaConv2d) :
  (data_format self <> "channels_last" /\
   data_format self <> "channels_first") \/
  (exists e, resolve_channels inputs_shape self = inl e) \/
  len (_strides self) < 2 \/
  len (_dilation_rate self) < 2 \/
  len (filter_size self) < 2 ->
  let obj := fst (build inputs_shape self) in
  (exists e, snd (build inputs_shape self) = inl e) /\
  filter_shape obj = filter_shape self /\
  W obj = W self /\
  b obj = b self /\
  _trainable_weights obj = _trainable_weights self /\
  _built obj = _built self.
Proof.
  intros Hbad obj. subst obj.
  destruct (malformed_build_raises _ _ Hbad) as (obj & e & Hrun).
  rewrite Hrun. simpl.
  destruct (build_inl_detail _ _ _ _ Hrun)
    as [(_ & Hbuilt & Hshape & HW & Hb & Htw) _].
  split; [exists e; reflexivity |].
  repeat split; assumption.
Qed.

(** Which error [build] raises on a channels_last or channels_first layer
    unfit for it: TypeError when neither [in_channels] nor an input shape is
    there to give the channels; IndexError when the input shape lacks the
    channel axis; IndexError when the channels resolve but [_strides],
    [_dilation_rate] or [filter_size] has fewer than two elements. *)
Theorem build_error_of_malformed_layer (inputs_shape : option (list Z))
    (self : DorefaConv2d) :
  data_format self = "channels_last" \/ data_format self = "channels_first" ->
  (in_channels self = None \/ in_channels self = Some 0 ->
   (inputs_shape = None ->
    snd (build inputs_shape self) = inl TypeError) /\
   (forall dims e,
      inputs_shape = Some dims ->
      subscript dims (channel_axis (data_format self)) = inl e ->
      snd (build inputs_shape self) = inl IndexError)) /\
  ((exists c, resolve_channels inputs_shape self = inr c) ->
   len (_strides self) < 2 \/
   len (_dilation_rate self) < 2 \/
   len (filter_size self) < 2 ->
   snd (build inputs_shape self) = inl IndexError).
Proof.
  intros Hmode.
  assert (Hknown : canonical_tag (data_format self) <> None)
    by (apply canonical_tag_Some; exact Hmode).
  assert (Hchannels : forall e,
            resolve_channels inputs_shape self = inl e ->
            snd (build inputs_shape self) = inl e).
  { intros e He.
    destruct (malformed_build_raises inputs_shape self) as (obj & e' & Hrun).
    - right. left. exists e. exact He.
    - rewrite Hrun. simpl. f_equal.
      destruct (build_inl_detail _ _ _ _ Hrun) as (_ & _ & Hrest).
      exact (proj1 (Hrest Hknown) e He). }
  split.
  - intros Hfalsy. split.
    + intros ->. apply Hchannels.
      unfold resolve_channels. rewrite (falsy_in_channels _ Hfalsy).
      reflexivity.
    + intros dims e -> He. rewrite (subscript_inl _ _ _ He) in He.
      apply Hchannels.
      unfold resolve_channels. rewrite (falsy_in_channels _ Hfalsy).
      exact He.
  - intros [c Hc] Hshort.
    destruct (malformed_build_raises inputs_shape self) as (obj & e & Hrun).
    + right. right. exact Hshort.
    + rewrite Hrun. simpl. f_equal.
      destruct (build_inl_detail _ _ _ _ Hrun) as (_ & _ & Hrest).
      exact (proj2 (Hrest Hknown) c Hc).
Qed.

(** A [build] that raised after the channel-ordering test cannot be tried
    again: [data_format] is rewritten by then, and every further [build] on
    the object raises the data_format error. *)
Theorem failed_build_cannot_be_retried (inputs_shape : option (list Z))
    (self obj : DorefaConv2d) (e : PyErr) :
  build inputs_shape self = (obj, inl e) ->
  e <> data_format_error ->
  forall inputs_shape', build inputs_shape' obj = (obj, inl data_format_error).
Proof.
  intros H He inputs_shape'.
  destruct (build_inl_cases _ _ _ _ H)
    as [(_ & Hguard & _) | (tag & Htag & _ & Hdf & _)]; [contradiction |].
  apply build_unknown_mode. rewrite Hdf.
  exact (canonical_tag_of_tag _ _ Htag).
Qed.

(** ** When [forward] raises *)

Lemma forward_without_W (x : Tensor) (self : DorefaConv2d) :
  W self = None -> forward x self = (self, inl (AttributeError "W")).
Proof.
  intros HW. unfold forward. unfold bind, ret, gets, getattr. simpl.
  rewrite HW. reflexivity.
Qed.

(** [forward] needs the attributes [build] creates: without [W] it raises
    AttributeError for [W], the object untouched, and it can only return
    when [W] exists and, if there is a [b_init], [b] exists too. *)
Theorem forward_returns_only_with_parameters (x : Tensor)
    (self : DorefaConv2d) :
  (W self = None -> forward x self = (self, inl (AttributeError "W"))) /\
  (forall obj out, forward x self = (obj, inr out) ->
     W self <> None /\ (b_init self <> None -> b self <> None)).
Proof.
  split; [apply forward_without_W |].
  intros obj out. unfold forward. unfold bind, ret, gets, getattr, if_truthy.
  simpl.
  destruct (W self) as [filters |]; simpl; [| discriminate].
  destruct (b_init self) as [init |]; simpl.
  - destruct (b self) as [bias |]; simpl; [| discriminate].
    intros _. split; congruence.
  - intros _. split; congruence.
Qed.

(** ** Construction *)

Lemma init_lazy_run (kw : Args) :
  kw_in_channels kw = None \/ kw_in_channels kw = Some 0 ->
  use_gemm kw = false ->
  len (strides kw) = 2 ->
  __init__ kw = (assign_attributes kw, inr tt).
Proof.
  intros Hic Hgemm Hlen. rewrite init_run. cbv zeta.
  rewrite (falsy_in_channels _ Hic), Hgemm, Hlen. reflexivity.
Qed.

(** [__init__] returns exactly when [use_gemm] is not selected, [strides]
    has 2 elements and, if [in_channels] is given, the [build] it runs at
    once completes. *)
Theorem init_completes_iff (kw : Args) :
  (exists obj, __init__ kw = (obj, inr tt)) <->
  use_gemm kw = false /\
  len (strides kw) = 2 /\
  (forall c, kw_in_channels kw = Some c -> c <> 0 ->
     exists built, build None (assign_attributes kw) = (built, inr tt)).
Proof.
  rewrite init_run. cbv zeta.
  assert (Hchecks : forall obj : DorefaConv2d,
    (exists obj',
       (if use_gemm kw then (obj, inl gemm_error)
        else if negb (len (strides kw) =? 2)
             then (obj, inl strides_error)
             else (obj, inr tt)) = (obj', @inr PyErr unit tt)) <->
    use_gemm kw = false /\ len (strides kw) = 2).
  { intros obj. destruct (use_gemm kw).
    - split; [intros [obj' [=]] | intros [[=] _]].
    - destruct (Z.eqb_spec (len (strides kw)) 2) as [Hlen | Hlen]; simpl.
      + split; [intros _; split; [reflexivity | exact Hlen] |].
        intros _. eexists. reflexivity.
      + split; [intros [obj' [=]] | intros [_ Hlen']; contradiction]. }
  destruct (kw_in_channels kw) as [c |].
  - unfold if_truthy. destruct (truthy c) eqn:Hc.
    + apply truthy_int_true in Hc.
      destruct (build None (assign_attributes kw)) as [built [e | []]] eqn:Hrun.
      * split; [intros [obj' [=]] |].
        intros (_ & _ & Hbuild).
        destruct (Hbuild c eq_refl Hc) as [built' [=]].
      * rewrite Hchecks. split.
        -- intros [Hg Hl]. repeat split; try assumption.
           intros c' _ _. exists built. reflexivity.
        -- intros (Hg & Hl & _). split; assumption.
    + rewrite Hchecks. split.
      * intros [Hg Hl]. repeat split; try assumption.
        intros c' [= <-] Hnz. apply truthy_int_true in Hnz. congruence.
      * intros (Hg & Hl & _). split; assumption.
  - simpl. rewrite Hchecks. split.
    + intros [Hg Hl]. repeat split; try assumption. intros c' [=].
    + intros (Hg & Hl & _). split; assumption.
Qed.

(** Without [in_channels], [__init__] neither builds nor looks at
    [data_format]: it returns the unbuilt object for every [data_format],
    on which [forward] raises AttributeError for [W], and an unknown
    [data_format] is only reported by the first [build]. *)
Theorem init_without_in_channels (kw : Args) :
  kw_in_channels kw = None \/ kw_in_channels kw = Some 0 ->
  use_gemm kw = false ->
  len (strides kw) = 2 ->
  let obj := assign_attributes kw in
  __init__ kw = (obj, inr tt) /\
  _built obj = false /\
  W obj = None /\
  _trainable_weights obj = [] /\
  (forall x, forward x obj = (obj, inl (AttributeError "W"))) /\
  (kw_data_format kw <> "channels_last" ->
   kw_data_format kw <> "channels_first" ->
   forall inputs_shape,
     build inputs_shape obj = (obj, inl data_format_error)).
Proof.
  intros Hic Hgemm Hlen obj.
  split; [exact (init_lazy_run kw Hic Hgemm Hlen) |].
  split; [reflexivity |]. split; [reflexivity |].
  split; [reflexivity |]. split.
  - intros x. apply forward_without_W. reflexivity.
  - intros Hlast Hfirst inputs_shape. apply build_unknown_mode.
    apply canonical_tag_None; assumption.
Qed.

(** When [__init__] returns on a configured [in_channels], the layer is
    built already, no input shape seen: [_built] is set, the channels are
    the configured ones, [data_format], [_strides] and [_dilation_rate]
    hold their canonical forms, the filter has the shape
    [(filter_size[0], filter_size[1], in_channels, n_filter)] and [W] is
    [W_init] over it. *)
Theorem init_with_in_channels (kw : Args) (c : Z) (obj : DorefaConv2d) :
  kw_in_channels kw = Some c -> c <> 0 ->
  __init__ kw = (obj, inr tt) ->
  _built obj = true /\
  in_channels obj = Some c /\
  pre_channel obj = Some c /\
  (exists sh sw dh dw rd,
     strides kw = [sh; sw] /\ dilation_rate kw = dh :: dw :: rd /\
     ((kw_data_format kw = "channels_last" /\ data_format obj = "NHWC" /\
       _strides obj = [1; sh; sw; 1] /\ _dilation_rate obj = [1; dh; dw; 1]) \/
      (kw_data_format kw = "channels_first" /\ data_format obj = "NCHW" /\
       _strides obj = [1; 1; sh; sw] /\
       _dilation_rate obj = [1; 1; dh; dw]))) /\
  (exists fh fw rf,
     filter_size kw = fh :: fw :: rf /\
     filter_shape obj = Some [fh; fw; c; n_filter kw] /\
     W obj = Some (W_init kw [fh; fw; c; n_filter kw])).
Proof.
  intros Hic Hc Hinit. rewrite init_run in Hinit. cbv zeta in Hinit.
  rewrite Hic, (truthy_in_channels c Hc) in Hinit.
  destruct (build None (assign_attributes kw)) as [built [e | []]] eqn:Hrun;
    [discriminate |].
  destruct (use_gemm kw); [discriminate |].
  destruct (Z.eqb_spec (len (strides kw)) 2) as [Hlen | Hlen];
    simpl in Hinit; [| discriminate].
  injection Hinit as <-.
  apply build_inr_resolved in Hrun.
  destruct Hrun as [tag c' s0 s1 d0 d1 f0 f1 Htag Hc' Hs0 Hs1 Hd0 Hd1 Hf0 Hf1].
  simpl in Htag, Hc', Hs0, Hs1, Hd0, Hd1, Hf0, Hf1.
  unfold resolve_channels in Hc'. simpl in Hc'.
  rewrite Hic, (truthy_in_channels c Hc) in Hc'. injection Hc' as <-.
  destruct (subscript_01_inv _ _ _ Hs0 Hs1) as [rs Hs].
  destruct (subscript_01_inv _ _ _ Hd0 Hd1) as [rd Hd].
  destruct (subscript_01_inv _ _ _ Hf0 Hf1) as [rf Hf].
  assert (Hrs : rs = []).
  { rewrite Hs in Hlen. unfold len in Hlen. cbn [List.length] in Hlen.
    destruct rs; [reflexivity | cbn [List.length] in Hlen; lia]. }
  subst rs. simpl.
  split; [reflexivity |].
  split; [rewrite Hic, (truthy_in_channels c Hc); reflexivity |].
  split; [reflexivity |]. split.
  - exists s0, s1, d0, d1, rd. split; [exact Hs |]. split; [exact Hd |].
    unfold expand4.
    destruct (canonical_tag_cases _ _ Htag) as [[Hmode ->] | [Hmode ->]];
      rewrite Hmode; [left | right]; repeat split.
  - exists f0, f1, rf. split; [exact Hf |]. split; reflexivity.
Qed.

(** ** From the constructor's arguments to the convolution *)

Lemma lazy_lifecycle_run (kw : Args) (dims : list Z) (tag : string)
    (c sh sw dh dw fh fw : Z) (x : Tensor) :
  kw_in_channels kw = None ->
  use_gemm kw = false ->
  strides kw = [sh; sw] ->
  dilation_rate kw = [dh; dw] ->
  filter_size kw = [fh; fw] ->
  canonical_tag (kw_data_format kw) = Some tag ->
  subscript dims (channel_axis (kw_data_format kw)) = inr c ->
  let obj := built_object (assign_attributes kw) tag c sh sw dh dw fh fw in
  __init__ kw = (assign_attributes kw, inr tt) /\
  build (Some dims) (assign_attributes kw) = (obj, inr tt) /\
  forward x obj =
  (obj,
   inr (let conv :=
          conv2d (quantize_active (cabs x) (bitA kw))
            (quantize_weight (W_init kw [fh; fw; c; n_filter kw]) (bitW kw))
            (expand4 (kw_data_format kw) sh sw) (padding kw) tag
            (expand4 (kw_data_format kw) dh dw) (name kw) in
        let biased :=
          match b_init kw with
          | Some init => bias_add conv (init [n_filter kw]) tag "bias_add"
          | None => conv
          end in
        if_truthy (act kw) (fun f => f biased) biased)).
Proof.
  intros Hic Hgemm Hs Hd Hf Htag Hc obj.
  split; [| split].
  - apply init_lazy_run; [left; exact Hic | exact Hgemm |].
    rewrite Hs. reflexivity.
  - apply resolved_build_inr. constructor; simpl; try assumption.
    + unfold resolve_channels. simpl. rewrite Hic. exact Hc.
    + rewrite Hs. reflexivity.
    + rewrite Hs. reflexivity.
    + rewrite Hd. reflexivity.
    + rewrite Hd. reflexivity.
    + rewrite Hf. reflexivity.
    + rewrite Hf. reflexivity.
  - rewrite (forward_with_parameters x (W_init kw [fh; fw; c; n_filter kw]) obj).
    + simpl. destruct (b_init kw); reflexivity.
    + reflexivity.
    + simpl. destruct (b_init kw); [discriminate | congruence].
Qed.

(** A layer constructed without [in_channels] from 2-element [strides],
    [dilation_rate] and [filter_size], then built on an input shape, hands
    [conv2d] the tag 'NHWC' or 'NCHW', the strides and dilations with 1 at
    the batch and channel axes, and the quantized filter of shape
    [(fh, fw, channels, n_filter)], the channels read at the last axis of
    the shape for channels_last and at index 1 for channels_first. *)
Theorem lazy_lifecycle (kw : Args) (dims : list Z)
    (sh sw dh dw fh fw : Z) (x : Tensor) :
  kw_in_channels kw = None ->
  use_gemm kw = false ->
  strides kw = [sh; sw] ->
  dilation_rate kw = [dh; dw] ->
  filter_size kw = [fh; fw] ->
  let result := fun (tag : string) (c : Z) (strides4 dilations4 : list Z) =>
    let conv :=
      conv2d (quantize_active (cabs x) (bitA kw))
        (quantize_weight (W_init kw [fh; fw; c; n_filter kw]) (bitW kw))
        strides4 (padding kw) tag dilations4 (name kw) in
    let biased :=
      match b_init kw with
      | Some init => bias_add conv (init [n_filter kw]) tag "bias_add"
      | None => conv
      end in
    if_truthy (act kw) (fun f => f biased) biased in
  (kw_data_format kw = "channels_last" -> dims <> [] ->
   exists obj0 obj,
     __init__ kw = (obj0, inr tt) /\
     build (Some dims) obj0 = (obj, inr tt) /\
     forward x obj =
     (obj, inr (result "NHWC" (last dims 0) [1; sh; sw; 1] [1; dh; dw; 1]))) /\
  (kw_data_format kw = "channels_first" ->
   forall c, nth_error dims 1 = Some c ->
   exists obj0 obj,
     __init__ kw = (obj0, inr tt) /\
     build (Some dims) obj0 = (obj, inr tt) /\
     forward x obj =
     (obj, inr (result "NCHW" c [1; 1; sh; sw] [1; 1; dh; dw]))).
Proof.
  intros Hic Hgemm Hs Hd Hf result. subst result. split.
  - intros Hmode Hne.
    destruct (lazy_lifecycle_run kw dims "NHWC" (last dims 0) sh sw dh dw fh fw
                x Hic Hgemm Hs Hd Hf) as (Hinit & Hbuild & Hforward).
    + rewrite Hmode. reflexivity.
    + rewrite Hmode. apply subscript_last, Hne.
    + do 2 eexists. split; [exact Hinit |]. split; [exact Hbuild |].
      rewrite Hforward. unfold expand4. rewrite Hmode. reflexivity.
  - intros Hmode c Hnth.
    destruct (lazy_lifecycle_run kw dims "NCHW" c sh sw dh dw fh fw
                x Hic Hgemm Hs Hd Hf) as (Hinit & Hbuild & Hforward).
    + rewrite Hmode. reflexivity.
    + rewrite Hmode. apply subscript_1_nth, Hnth.
    + do 2 eexists. split; [exact Hinit |]. split; [exact Hbuild |].
      rewrite Hforward. unfold expand4. rewrite Hmode. reflexivity.
Qed.

End Lifecycle.

(** * What [__repr__] shows *)

Section ReprFacts.

Context {RT : TensorRuntime}.

Variable __name__ : (Tensor -> Tensor) -> string.

Lemma string_app_assoc (a b c : string) : (a ++ b) ++ c = a ++ (b ++ c).
Proof.
  induction a as [| ch a IH]; simpl; [reflexivity |].
  rewrite IH. reflexivity.
Qed.

Lemma option_map_String (ch : ascii) (lit : string) (r : option string) :
  option_map (String ch) (option_map (append lit) r) =
  option_map (append (String ch lit)) r.
Proof. destruct r; reflexivity. Qed.

Lemma option_map_empty (r : option string) :
  option_map (append EmptyString) r = r.
Proof. destruct r; reflexivity. Qed.

(** Text without braces goes through [format] as it is. *)
Lemma format_text (lit rest : string) (kwargs : string -> option string) :
  no_brace lit = true ->
  format_from InText (lit ++ rest) kwargs =
  option_map (append lit) (format_from InText rest kwargs).
Proof.
  induction lit as [| ch lit IH]; simpl.
  - intros _. rewrite option_map_empty. reflexivity.
  - intros H. apply andb_true_iff in H. destruct H as [H Hlit].
    apply andb_true_iff in H. destruct H as [Hopen Hclose].
    apply negb_true_iff in Hopen, Hclose. rewrite Hopen, Hclose.
    rewrite (IH Hlit). apply option_map_String.
Qed.

Lemma tuple_eqb_ones (t : list Z) :
  tuple_eqb t (tuple_repeat 1 (len t)) = forallb (fun v => v =? 1) t.
Proof.
  unfold tuple_repeat, len. rewrite Nat2Z.id.
  induction t as [| v t IH]; simpl; [reflexivity |].
  rewrite IH. reflexivity.
Qed.

Lemma repr_render (self : DorefaConv2d) :
  let actstr :=
    match act self with
    | Some f => __name__ f
    | None => "No Activation"
    end in
  no_brace actstr = true ->
  __repr__ __name__ self =
  Some ("DorefaConv2d(in_channels=" ++ str_optional_int (in_channels self)
        ++ ", out_channels=" ++ str_int (n_filter self)
        ++ ", kernel_size=" ++ str_tuple (filter_size self)
        ++ ", strides=" ++ str_tuple (strides self)
        ++ ", padding=" ++ padding self
        ++ (if forallb (fun v => v =? 1) (dilation_rate self) then ""
            else ", dilation=" ++ str_tuple (dilation_rate self))
        ++ match b_init self with
           | None => ", bias=False"
           | Some _ => ""
           end
        ++ ", " ++ actstr
        ++ match name self with
           | Some text => ", name='" ++ text ++ "'"
           | None => ""
           end
        ++ ")").
Proof.
  intros actstr Hact. unfold __repr__. fold actstr.
  rewrite tuple_eqb_ones. unfold format, format_kwargs.
  clearbody actstr.
  generalize (str_optional_int (in_channels self)) as channels.
  generalize (str_int (n_filter self)) as filters.
  generalize (str_tuple (filter_size self)) as kernel.
  generalize (str_tuple (strides self)) as strides2.
  generalize (str_tuple (dilation_rate self)) as dilation.
  generalize (padding self) as pad.
  intros pad dilation strides2 kernel filters channels.
  destruct (forallb (fun v => v =? 1) (dilation_rate self));
    destruct (b_init self); destruct (name self) as [text |];
    cbn [negb str_optional];
    rewrite !string_app_assoc; cbn;
    rewrite (format_text actstr _ _ Hact); cbn.
  all: reflexivity.
Qed.

Lemma repr_reads (x y : DorefaConv2d) :
  hyper x = hyper y -> in_channels x = in_channels y ->
  __repr__ __name__ x = __repr__ __name__ y.
Proof.
  intros Hh Hic. unfold __repr__, format_kwargs.
  change (act x) with (act (hyper x)). change (act y) with (act (hyper y)).
  rewrite Hh, Hic. reflexivity.
Qed.

(** When the name of the activation has no brace in it, [__repr__] returns
    this string: the class name, [in_channels] (or None), [n_filter],
    [filter_size], [strides] and [padding], then the dilation unless every
    entry of [dilation_rate] is 1, then [bias=False] if there is no
    [b_init], then the name of the activation or "No Activation", then the
    quoted layer name unless [name] is [None]. [padding] and [name] are
    shown as they are, braces included. *)
Theorem repr_shows (self : DorefaConv2d) :
  let actstr :=
    match act self with
    | Some f => __name__ f
    | None => "No Activation"
    end in
  no_brace actstr = true ->
  __repr__ __name__ self =
  Some ("DorefaConv2d(in_channels=" ++ str_optional_int (in_channels self)
        ++ ", out_channels=" ++ str_int (n_filter self)
        ++ ", kernel_size=" ++ str_tuple (filter_size self)
        ++ ", strides=" ++ str_tuple (strides self)
        ++ ", padding=" ++ padding self
        ++ (if forallb (fun v => v =? 1) (dilation_rate self) then ""
            else ", dilation=" ++ str_tuple (dilation_rate self))
        ++ match b_init self with
           | None => ", bias=False"
           | Some _ => ""
           end
        ++ ", " ++ actstr
        ++ match name self with
           | Some text => ", name='" ++ text ++ "'"
           | None => ""
           end
        ++ ")").
Proof. exact (repr_render self). Qed.

(** When the name of the activation has no brace in it, a completed [build]
    changes the string [__repr__] returns in one place only: [in_channels]
    now is the resolved count. The strides and the dilation shown stay the
    2-element ones of the constructor, and with a configured [in_channels]
    the string is the one from before the call. *)
Theorem repr_after_build (inputs_shape : option (list Z))
    (self obj : DorefaConv2d) :
  build inputs_shape self = (obj, inr tt) ->
  no_brace (match act self with
            | Some f => __name__ f
            | None => "No Activation"
            end) = true ->
  exists c text,
    pre_channel obj = Some c /\
    __repr__ __name__ obj = Some text /\
    __repr__ __name__ (set_in_channels (Some c) self) = Some text /\
    (forall c', in_channels self = Some c' -> c' <> 0 ->
                __repr__ __name__ self = Some text).
Proof.
  intros H Hact. apply build_inr_resolved in H.
  destruct H as [tag c s0 s1 d0 d1 f0 f1 _ Hc _ _ _ _ _ _].
  assert (Hic : in_channels
                  (built_object self tag c s0 s1 d0 d1 f0 f1) = Some c).
  { simpl. unfold resolve_channels, if_truthy in *.
    destruct (in_channels self) as [c' |]; [| reflexivity].
    destruct (truthy c'); [congruence | reflexivity]. }
  pose proof (repr_render (set_in_channels (Some c) self) Hact) as Htext.
  exists c. eexists. split; [reflexivity |]. split; [| split].
  - rewrite (repr_reads _ (set_in_channels (Some c) self));
      [exact Htext | reflexivity | exact Hic].
  - exact Htext.
  - intros c' Hself Hnz.
    rewrite (repr_reads _ (set_in_channels (Some c) self));
      [exact Htext | reflexivity |].
    unfold resolve_channels, if_truthy in Hc. rewrite Hself in Hc.
    apply truthy_int_true in Hnz. rewrite Hnz in Hc.
    injection Hc as <-. exact Hself.
Qed.

End ReprFacts.

(** * The further properties on concrete layers *)

Ltac compute_it := vm_compute; reflexivity.

Lemma build_ignores_extra_elements_witness :
  build (Some [8; 28; 28; 3]) long_strides_layer =
    (fst (build (Some [8; 28; 28; 3]) long_strides_layer), inr tt) /\
  _strides long_strides_layer = [2; 3; 4] /\
  _strides (fst (build (Some [8; 28; 28; 3]) long_strides_layer))
  = [1; 2; 3; 1].
Proof.
  assert (Hrun : build (Some [8; 28; 28; 3]) long_strides_layer =
                 (fst (build (Some [8; 28; 28; 3]) long_strides_layer), inr tt))
    by compute_it.
  assert (Hs : _strides long_strides_layer = [2; 3; 4]) by compute_it.
  assert (Hd : _dilation_rate long_strides_layer = [1; 1]) by compute_it.
  assert (Hmode : data_format long_strides_layer = "channels_last")
    by compute_it.
  split; [exact Hrun |]. split; [exact Hs |].
  exact (proj1 (proj1 (build_ignores_extra_elements _ _ _ 2 3 1 1 [4] []
                         Hrun Hs Hd) Hmode)).
Defined.

Lemma build_filter_shape_witness :
  build (Some [8; 28; 28; 3]) lazy_layer = (built_lazy_layer, inr tt) /\
  exists f0 f1 rest c,
    filter_size lazy_layer = f0 :: f1 :: rest /\
    pre_channel built_lazy_layer = Some c /\
    filter_shape built_lazy_layer = Some [f0; f1; c; n_filter lazy_layer] /\
    W built_lazy_layer =
      Some (W_init lazy_layer [f0; f1; c; n_filter lazy_layer]) /\
    In ("filters", [f0; f1; c; n_filter lazy_layer],
        W_init lazy_layer [f0; f1; c; n_filter lazy_layer])
       (_trainable_weights built_lazy_layer).
Proof.
  assert (Hrun : build (Some [8; 28; 28; 3]) lazy_layer
                 = (built_lazy_layer, inr tt)) by compute_it.
  split; [exact Hrun |].
  exact (build_filter_shape _ _ _ Hrun).
Defined.

Lemma build_in_channels_witness :
  build (Some [8; 28; 28; 3]) lazy_layer = (built_lazy_layer, inr tt) /\
  in_channels lazy_layer = None /\
  in_channels built_lazy_layer = Some 3.
Proof.
  assert (Hrun : build (Some [8; 28; 28; 3]) lazy_layer
                 = (built_lazy_layer, inr tt)) by compute_it.
  split; [exact Hrun |]. split; [compute_it |].
  destruct (build_in_channels _ _ _ Hrun) as (c & Hpre & Hic & _).
  vm_compute in Hpre. injection Hpre as <-. exact Hic.
Defined.

Lemma build_completes_only_if_witness :
  build (Some [8; 28; 28; 3]) long_strides_layer =
    (fst (build (Some [8; 28; 28; 3]) long_strides_layer), inr tt) /\
  data_format long_strides_layer = "channels_last" /\
  len (_strides long_strides_layer) = 3 /\
  2 <= len (filter_size long_strides_layer).
Proof.
  assert (Hrun : build (Some [8; 28; 28; 3]) long_strides_layer =
                 (fst (build (Some [8; 28; 28; 3]) long_strides_layer), inr tt))
    by compute_it.
  split; [exact Hrun |]. split; [compute_it |]. split; [compute_it |].
  destruct (build_completes_only_if _ _ _ Hrun) as (_ & _ & _ & _ & Hf).
  exact Hf.
Defined.

Lemma malformed_build_allocates_nothing_witness :
  len (_strides short_strides_layer) < 2 /\
  snd (build None short_strides_layer) = inl IndexError /\
  W (fst (build None short_strides_layer)) = None /\
  _trainable_weights (fst (build None short_strides_layer)) = [].
Proof.
  assert (Hshort : len (_strides short_strides_layer) < 2)
    by (vm_compute; reflexivity).
  split; [exact Hshort |]. split; [compute_it |].
  destruct (malformed_build_allocates_nothing None short_strides_layer
              (or_intror (or_intror (or_introl Hshort))))
    as (_ & _ & HW & _ & Htw & _).
  split; [exact HW | exact Htw].
Defined.

Lemma build_error_of_malformed_layer_witness :
  (data_format lazy_layer = "channels_last" \/
   data_format lazy_layer = "channels_first") /\
  in_channels lazy_layer = None /\
  snd (build None lazy_layer) = inl TypeError /\
  snd (build (Some []) lazy_layer) = inl IndexError /\
  len (_strides short_strides_layer) < 2 /\
  snd (build None short_strides_layer) = inl IndexError.
Proof.
  assert (Hmode : data_format lazy_layer = "channels_last" \/
                  data_format lazy_layer = "channels_first")
    by (left; compute_it).
  assert (Hnone : in_channels lazy_layer = None) by compute_it.
  assert (Hshort : len (_strides short_strides_layer) < 2)
    by (vm_compute; reflexivity).
  assert (Hmode' : data_format short_strides_layer = "channels_last" \/
                   data_format short_strides_layer = "channels_first")
    by (left; compute_it).
  split; [exact Hmode |]. split; [exact Hnone |].
  split; [| split; [| split; [exact Hshort |]]].
  - exact (proj1 (proj1 (build_error_of_malformed_layer None lazy_layer Hmode)
                    (or_introl Hnone)) eq_refl).
  - apply (proj2 (proj1 (build_error_of_malformed_layer (Some []) lazy_layer
                           Hmode) (or_introl Hnone)) [] IndexError eq_refl).
    compute_it.
  - apply (proj2 (build_error_of_malformed_layer None short_strides_layer
                    Hmode')).
    + exists 3. compute_it.
    + left. exact Hshort.
Defined.

Lemma failed_build_cannot_be_retried_witness :
  build None lazy_layer = (fst (build None lazy_layer), inl TypeError) /\
  TypeError <> data_format_error /\
  build (Some [8; 28; 28; 3]) (fst (build None lazy_layer)) =
    (fst (build None lazy_layer), inl data_format_error).
Proof.
  assert (Hrun : build None lazy_layer =
                 (fst (build None lazy_layer), inl TypeError)) by compute_it.
  assert (He : TypeError <> data_format_error) by discriminate.
  split; [exact Hrun |]. split; [exact He |].
  exact (failed_build_cannot_be_retried _ _ _ _ Hrun He (Some [8; 28; 28; 3])).
Defined.

Lemma init_without_in_channels_witness :
  (kw_in_channels bad_mode_args = None \/
   kw_in_channels bad_mode_args = Some 0) /\
  use_gemm bad_mode_args = false /\
  len (strides bad_mode_args) = 2 /\
  __init__ bad_mode_args = (bad_mode_layer, inr tt) /\
  build (Some [8; 28; 28; 3]) bad_mode_layer =
    (bad_mode_layer, inl data_format_error).
Proof.
  assert (Hic : kw_in_channels bad_mode_args = None \/
                kw_in_channels bad_mode_args = Some 0) by (left; compute_it).
  assert (Hgemm : use_gemm bad_mode_args = false) by compute_it.
  assert (Hlen : len (strides bad_mode_args) = 2) by compute_it.
  split; [exact Hic |]. split; [exact Hgemm |]. split; [exact Hlen |].
  destruct (init_without_in_channels bad_mode_args Hic Hgemm Hlen)
    as (Hinit & _ & _ & _ & _ & Hbuild).
  split; [exact Hinit |].
  apply Hbuild; vm_compute; discriminate.
Defined.

Lemma init_with_in_channels_witness :
  kw_in_channels eager_args = Some 16 /\
  __init__ eager_args = (fst (__init__ eager_args), inr tt) /\
  _built (fst (__init__ eager_args)) = true /\
  pre_channel (fst (__init__ eager_args)) = Some 16 /\
  data_format (fst (__init__ eager_args)) = "NCHW" /\
  filter_shape (fst (__init__ eager_args)) = Some [3; 3; 16; 32].
Proof.
  assert (Hic : kw_in_channels eager_args = Some 16) by compute_it.
  assert (Hinit : __init__ eager_args = (fst (__init__ eager_args), inr tt))
    by compute_it.
  split; [exact Hic |]. split; [exact Hinit |].
  destruct (init_with_in_channels eager_args 16 _ Hic ltac:(discriminate)
              Hinit)
    as (Hbuilt & _ & Hpre & Hlayout & Hfilter).
  split; [exact Hbuilt |]. split; [exact Hpre |]. split.
  - destruct Hlayout as (sh & sw & dh & dw & rd & _ & _
                         & [(Hmode & _) | (_ & Htag & _)]).
    + vm_compute in Hmode. discriminate.
    + exact Htag.
  - destruct Hfilter as (fh & fw & rf & Hsize & Hshape & _).
    vm_compute in Hsize. injection Hsize as <- <- <-. exact Hshape.
Defined.

Lemma lazy_lifecycle_witness :
  kw_in_channels default_args = None /\
  exists obj0 obj,
    __init__ default_args = (obj0, inr tt) /\
    build (Some [8; 28; 28; 3]) obj0 = (obj, inr tt) /\
    forward (SInput "x") obj =
    (obj,
     inr (SBiasAdd
            (SConv2d (SQuantizeActive (SCabs (SInput "x")) 3)
               (SQuantizeWeight (SParam "truncated_normal" [3; 3; 3; 32]) 1)
               [1; 1; 1; 1] "SAME" "NHWC" [1; 1; 1; 1]
               (Some "dorefa_cnn2d"))
            (SParam "constant" [32]) "NHWC" "bias_add")).
Proof.
  assert (Hic : kw_in_channels default_args = None) by compute_it.
  split; [exact Hic |].
  assert (Hmode : kw_data_format default_args = "channels_last")
    by compute_it.
  assert (Hne : [8; 28; 28; 3] <> []) by discriminate.
  destruct (proj1 (lazy_lifecycle default_args [8; 28; 28; 3] 1 1 1 1 3 3
                     (SInput "x") Hic eq_refl eq_refl eq_refl eq_refl)
              Hmode Hne)
    as (obj0 & obj & Hinit & Hbuild & Hforward).
  exists obj0, obj. split; [exact Hinit |]. split; [exact Hbuild |].
  exact Hforward.
Defined.

Lemma repr_shows_witness :
  no_brace "relu" = true /\
  no_brace "No Activation" = true /\
  __repr__ sym_name relu_layer =
  Some ("DorefaConv2d(in_channels=None, out_channels=32, kernel_size=(3, 3), "
        ++ "strides=(1, 1), padding=VALID, dilation=(2, 2), bias=False, "
        ++ "relu, name='conv{1}')") /\
  __repr__ sym_name unnamed_layer =
  Some ("DorefaConv2d(in_channels=None, out_channels=32, kernel_size=(3, 3), "
        ++ "strides=(1, 1), padding=SAME, No Activation)").
Proof.
  assert (Hrelu : no_brace "relu" = true) by compute_it.
  assert (Hnone : no_brace "No Activation" = true) by compute_it.
  split; [exact Hrelu |]. split; [exact Hnone |]. split.
  - pose proof (repr_shows sym_name relu_layer Hrelu) as Hrepr.
    vm_compute in Hrepr |- *. exact Hrepr.
  - pose proof (repr_shows sym_name unnamed_layer Hnone) as Hrepr.
    vm_compute in Hrepr |- *. exact Hrepr.
Defined.

Lemma repr_after_build_witness :
  build (Some [8; 28; 28; 3]) lazy_layer = (built_lazy_layer, inr tt) /\
  no_brace "No Activation" = true /\
  __repr__ sym_name lazy_layer =
  Some ("DorefaConv2d(in_channels=None, out_channels=32, kernel_size=(3, 3), "
        ++ "strides=(1, 1), padding=SAME, No Activation, "
        ++ "name='dorefa_cnn2d')") /\
  __repr__ sym_name built_lazy_layer =
  Some ("DorefaConv2d(in_channels=3, out_channels=32, kernel_size=(3, 3), "
        ++ "strides=(1, 1), padding=SAME, No Activation, "
        ++ "name='dorefa_cnn2d')").
Proof.
  assert (Hrun : build (Some [8; 28; 28; 3]) lazy_layer
                 = (built_lazy_layer, inr tt)) by compute_it.
  assert (Hact : no_brace "No Activation" = true) by compute_it.
  split; [exact Hrun |]. split; [exact Hact |]. split; [compute_it |].
  destruct (repr_after_build (RT := SymRuntime) sym_name _ _ _ Hrun Hact)
    as (c & text & Hpre & Hobj & Hset & _).
  vm_compute in Hpre. injection Hpre as <-.
  rewrite Hobj, <- Hset. compute_it.
Defined.
